(** * Avocado: the TikTok scraper service (backend/app/services/scraper.py)

    A shallow embedding of [TikTokScraper] and of the configuration it
    reads (backend/app/core/config.py), followed by the properties of the
    upstream client, the response mapper and the orchestrator.

    Python values are embedded as the type [value]; a call that may raise
    returns a [result], whose [Raise] carries the exception object.  The
    collaborators of the service that live outside these two files (the
    URL helpers, the httpx client, the order in which the event loop
    completes two coroutines) are gathered in the record [Env]. *)

From stdpp Require Import base option strings gmap pretty.
From Stdlib Require Import ZArith Lia.

#[local] Set Warnings "-register-all".
#[local] Open Scope string_scope.
#[local] Open Scope Z_scope.

(** ** Python values *)

(** What [response.json()] can return, and what the untyped fields of the
    schema objects hold.  [VNone] is Python's [None] (also JSON null);
    JSON numbers are taken to be integers. *)
Inductive value :=
| VNone
| VBool (b : bool)
| VInt (n : Z)
| VStr (s : string)
| VList (l : list value)
| VDict (d : gmap string value).

(** Truth value testing, as used by [or], [if x] and [not x]. *)
Definition truthy (v : value) : bool :=
  match v with
  | VNone => false
  | VBool b => b
  | VInt n => negb (Z.eqb n 0)
  | VStr s => negb (String.eqb s "")
  | VList l => match l with [] => false | _ :: _ => true end
  | VDict d => negb (Nat.eqb (size d) 0)
  end.

(** [x is not None] *)
Definition is_not_None (v : value) : bool :=
  match v with VNone => false | _ => true end.

(** [type(v).__name__], as it appears in the message of an AttributeError. *)
Definition type_name (v : value) : string :=
  match v with
  | VNone => "NoneType"
  | VBool _ => "bool"
  | VInt _ => "int"
  | VStr _ => "str"
  | VList _ => "list"
  | VDict _ => "dict"
  end.

(** ** Exceptions *)

(** Modelled from the spec: the exception classes of
    app/services/exceptions.py, which is not among the sources, as the
    tagged variants AuthError, QuotaExhausted,
    GenericAPIError{statusCode, message} and InvalidInput{reason} of the
    data model.  [SupadataAuthError] and [SupadataCreditsExhausted] are
    raised without arguments; [SupadataAPIError] takes a message and an
    optional [status_code] keyword.  The remaining constructors are the
    Python and httpx classes the service catches or can let escape:
    [ValueError] (with its subclasses, such as the JSON decoding error),
    [httpx.HTTPError], [AttributeError], any other subclass of
    [Exception], and the exceptions outside [Exception]
    ([asyncio.CancelledError], [KeyboardInterrupt], [SystemExit]), which
    an await can raise and [except Exception] does not catch. *)
Inductive exn :=
| SupadataAuthError
| SupadataCreditsExhausted
| SupadataAPIError (message : string) (status_code : option Z)
| InvalidTikTokURLError (message : string)
| ValueError (message : string)
| HTTPError (message : string)
| AttributeError (message : string)
| OtherException (message : string)
| OutsideException (message : string).

Inductive result (A : Type) :=
| Ok (a : A)
| Raise (e : exn).
Arguments Ok {A} a.
Arguments Raise {A} e.

Definition bind {A B} (r : result A) (k : A -> result B) : result B :=
  match r with
  | Ok a => k a
  | Raise e => Raise e
  end.

Notation "x <- e ;; k" := (bind e (fun x => k))
  (at level 100, e at next level, k at level 200, right associativity).

(** [try: body  except ...: handler] where every handler raises. *)
Definition try_except {A} (body : result A) (handler : exn -> exn) : result A :=
  match body with
  | Ok a => Ok a
  | Raise e => Raise (handler e)
  end.

(** ** Method calls on Python values *)

(** [v.get(key)]: defined on dictionaries only. *)
Definition get (v : value) (key : string) : result value :=
  match v with
  | VDict d => Ok (default VNone (d !! key))
  | _ => Raise (AttributeError ("'" +:+ type_name v +:+ "' object has no attribute 'get'"))
  end.

(** [v.get(key, dflt)] *)
Definition get_default (v : value) (key : string) (dflt : value) : result value :=
  match v with
  | VDict d => Ok (default dflt (d !! key))
  | _ => Raise (AttributeError ("'" +:+ type_name v +:+ "' object has no attribute 'get'"))
  end.

(** [a or b]: [b] is only evaluated, and can only raise, when [a] is falsy. *)
Definition or_ (a : value) (b : result value) : result value :=
  if truthy a then Ok a else b.

(** ** Configuration (app/core/config.py) *)

Record Settings := {
  API_V1_PREFIX : string;
  PROJECT_NAME : string;
  VERSION : string;
  DEBUG : bool;
  SUPADATA_API_KEY : string;
  SUPADATA_BASE_URL : string;
  SUPADATA_METADATA_ENDPOINT : string;
  SUPADATA_TRANSCRIPT_ENDPOINT : string;
  REQUEST_TIMEOUT : Z;
  MAX_RETRIES : Z;
  CORS_ORIGINS : list string
}.

(** The defaults of [Settings]; the API key has none and comes from the
    environment. *)
Definition default_settings (api_key : string) : Settings := {|
  API_V1_PREFIX := "/api/v1";
  PROJECT_NAME := "Avocado TikTok Fact Checker";
  VERSION := "0.1.0";
  DEBUG := false;
  SUPADATA_API_KEY := api_key;
  SUPADATA_BASE_URL := "https://api.supadata.ai/v1";
  SUPADATA_METADATA_ENDPOINT := "/tiktok/metadata";
  SUPADATA_TRANSCRIPT_ENDPOINT := "/transcript";
  REQUEST_TIMEOUT := 30;
  MAX_RETRIES := 3;
  CORS_ORIGINS := ["*"]
|}.

(** ** Schema objects (app/schemas/tiktok.py) *)

(** Modelled from the spec: the three schema classes are not among the
    sources; the data model gives their fields and says that all of them
    are nullable.  They are taken as plain records whose constructors
    store their arguments as given; fields of unknown Python type hold a
    [value]. *)
Module TikTokMetadata.
Record t := mk {
  title : value;
  description : value;
  audio_url : value;
  author : value;
  likes : value;
  views : value;
  shares : value;
  comments : value
}.
End TikTokMetadata.

Module TikTokTranscript.
Record t := mk {
  text : value;
  language : value
}.
End TikTokTranscript.

Module TikTokData.
Record t := mk {
  url : string;
  video_id : value;
  title : value;
  description : value;
  audio_url : value;
  author : value;
  likes : value;
  views : value;
  shares : value;
  comments : value;
  transcript : value;
  transcript_language : value;
  has_transcript : bool
}.
End TikTokData.

(** ** The HTTP client (httpx) *)

(** The arguments of [client.get(endpoint, params=, headers=, timeout=)]. *)
Record Request := {
  endpoint : string;
  params : gmap string string;
  headers : gmap string string;
  req_timeout : Z
}.

(** What the service reads from an [httpx.Response]: the status code, the
    body as text, and the outcome of [response.json()], which raises a
    [ValueError] on a body that is not JSON. *)
Module Response.
Record t := mk {
  status_code : Z;
  text : string;
  json : result value
}.
End Response.

(** An [httpx.AsyncClient]: [await client.get(...)] returns a response or
    raises (an [HTTPError] on a transport failure). *)
Definition AsyncClient := Request -> result Response.t.

(** ** Collaborators outside the sources *)

(** The two coroutines handed to [asyncio.gather]. *)
Inductive task := metadata_task | transcript_task.

(** [asyncio.gather(a, b, return_exceptions=False)] as seen by the
    coroutine awaiting it: the pair of results when both complete, and
    otherwise the first exception raised; [first] tells which coroutine
    the event loop completes first when both raise. *)
Definition gather {A B} (first : task) (a : result A) (b : result B) : result (A * B) :=
  match a, b with
  | Ok x, Ok y => Ok (x, y)
  | Raise e, Ok _ => Raise e
  | Ok _, Raise e => Raise e
  | Raise ea, Raise eb =>
      Raise (match first with metadata_task => ea | transcript_task => eb end)
  end.

(** The functions imported from app/utils/url_utils.py (not among the
    sources), the client built by [httpx.AsyncClient()], and the event
    loop's completion order. *)
Record Env := {
  clean_tiktok_url : string -> result string;
  resolve_short_url : string -> result string;
  extract_video_id : string -> result value;
  new_AsyncClient : AsyncClient;
  completes_first : task
}.

(** ** class TikTokScraper *)

Record TikTokScraper := {
  base_url : string;
  api_key : string;
  timeout : Z
}.

Section Scraper.
(** The module-level [settings] object. *)
Variable settings : Settings.

(** [TikTokScraper.__init__] *)
Definition TikTokScraper__init__ : result TikTokScraper :=
  let self := {| base_url := SUPADATA_BASE_URL settings;
                 api_key := SUPADATA_API_KEY settings;
                 timeout := REQUEST_TIMEOUT settings |} in
  if negb (truthy (VStr (api_key self)))
  then Raise (ValueError "SUPADATA_API_KEY is not configured")
  else Ok self.

Definition _get_headers (self : TikTokScraper) : gmap string string :=
  {[ "Authorization" := "Bearer " +:+ api_key self;
     "Content-Type" := "application/json" ]}.

(** The "Parse response into our schema" step of [_fetch_metadata]
    (lines 81-92): the keyword arguments are evaluated in order, then
    the object is built. *)
Definition parse_metadata (data : value) : result TikTokMetadata.t :=
  title <- (a <- get data "title";; or_ a (get data "desc"));;
  description <- (a <- get data "description";; or_ a (get data "desc"));;
  audio_url <- (a <- get data "audio_url";;
                or_ a (m <- get_default data "music" (VDict ∅);; get m "playUrl"));;
  author <- (a <- get data "author";;
             or_ a (m <- get_default data "author" (VDict ∅);; get m "uniqueId"));;
  likes <- (a <- get data "likes";;
            or_ a (m <- get_default data "stats" (VDict ∅);; get m "diggCount"));;
  views <- (a <- get data "views";;
            or_ a (m <- get_default data "stats" (VDict ∅);; get m "playCount"));;
  shares <- (a <- get data "shares";;
             or_ a (m <- get_default data "stats" (VDict ∅);; get m "shareCount"));;
  comments <- (a <- get data "comments";;
               or_ a (m <- get_default data "stats" (VDict ∅);; get m "commentCount"));;
  Ok (TikTokMetadata.mk title description audio_url author likes views shares comments).

Definition _fetch_metadata (self : TikTokScraper) (url : string) (client : AsyncClient)
  : result TikTokMetadata.t :=
  let endpoint := base_url self +:+ SUPADATA_METADATA_ENDPOINT settings in
  let params : gmap string string := {[ "url" := url ]} in
  try_except
    (response <- client {| endpoint := endpoint; params := params;
                           headers := _get_headers self;
                           req_timeout := timeout self |};;
     if Response.status_code response =? 401 then Raise SupadataAuthError
     else if Response.status_code response =? 402 then Raise SupadataCreditsExhausted
     else if Response.status_code response >=? 400 then
       Raise (SupadataAPIError
                ("Metadata API error: " +:+ pretty (Response.status_code response)
                 +:+ " - " +:+ Response.text response)
                (Some (Response.status_code response)))
     else
       data <- Response.json response;;
       parse_metadata data)
    (fun e => match e with
              | HTTPError msg => SupadataAPIError ("Failed to fetch metadata: " +:+ msg) None
              | _ => e
              end).

(** The "Parse response" step of [_fetch_transcript] (lines 142-152). *)
Definition parse_transcript (data : value) : result (option TikTokTranscript.t) :=
  transcript_text <- (a <- get data "text";; or_ a (get data "transcript"));;
  language <- (a <- get data "language";; or_ a (get data "lang"));;
  if truthy transcript_text
  then Ok (Some (TikTokTranscript.mk transcript_text language))
  else Ok None.

Definition _fetch_transcript (self : TikTokScraper) (url : string) (client : AsyncClient)
  : result (option TikTokTranscript.t) :=
  let endpoint := base_url self +:+ SUPADATA_TRANSCRIPT_ENDPOINT settings in
  let params : gmap string string := {[ "url" := url ]} in
  try_except
    (response <- client {| endpoint := endpoint; params := params;
                           headers := _get_headers self;
                           req_timeout := timeout self |};;
     if Response.status_code response =? 404 then Ok None
     else if Response.status_code response =? 401 then Raise SupadataAuthError
     else if Response.status_code response =? 402 then Raise SupadataCreditsExhausted
     else if Response.status_code response >=? 400 then
       Raise (SupadataAPIError
                ("Transcript API error: " +:+ pretty (Response.status_code response)
                 +:+ " - " +:+ Response.text response)
                (Some (Response.status_code response)))
     else
       data <- Response.json response;;
       parse_transcript data)
    (fun e => match e with
              | HTTPError msg => SupadataAPIError ("Failed to fetch transcript: " +:+ msg) None
              | _ => e
              end).

(** The handlers that close [fetch_tiktok_data] (lines 219-227): a
    [ValueError] becomes [InvalidTikTokURLError(str(e))], the auth and
    credits errors are raised again as they are, and every other
    [Exception] becomes
    [SupadataAPIError(f"Failed to fetch TikTok data: {str(e)}")]; an
    exception outside [Exception] meets no handler and goes on as it
    is. *)
Definition fetch_tiktok_data_handlers (e : exn) : exn :=
  match e with
  | ValueError msg => InvalidTikTokURLError msg
  | SupadataAuthError | SupadataCreditsExhausted => e
  | SupadataAPIError msg _ | InvalidTikTokURLError msg | HTTPError msg
  | AttributeError msg | OtherException msg =>
      SupadataAPIError ("Failed to fetch TikTok data: " +:+ msg) None
  | OutsideException _ => e
  end.

(** [transcript] is [None] or a schema object; a schema object is truthy,
    so [x if transcript else None] selects on presence alone. *)
Definition fetch_tiktok_data (env : Env) (self : TikTokScraper) (video_url : string)
  : result TikTokData.t :=
  try_except
    (cleaned_url <- clean_tiktok_url env video_url;;
     resolved_url <- resolve_short_url env cleaned_url;;
     video_id <- extract_video_id env resolved_url;;
     let client := new_AsyncClient env in
     let metadata_task := _fetch_metadata self resolved_url client in
     let transcript_task := _fetch_transcript self resolved_url client in
     gathered <- gather (completes_first env) metadata_task transcript_task;;
     let '(metadata, transcript) := gathered in
     let has_transcript :=
       match transcript with
       | Some tr => is_not_None (TikTokTranscript.text tr)
       | None => false
       end in
     Ok (TikTokData.mk
           resolved_url
           video_id
           (TikTokMetadata.title metadata)
           (TikTokMetadata.description metadata)
           (TikTokMetadata.audio_url metadata)
           (TikTokMetadata.author metadata)
           (TikTokMetadata.likes metadata)
           (TikTokMetadata.views metadata)
           (TikTokMetadata.shares metadata)
           (TikTokMetadata.comments metadata)
           (match transcript with Some tr => TikTokTranscript.text tr | None => VNone end)
           (match transcript with Some tr => TikTokTranscript.language tr | None => VNone end)
           has_transcript))
    fetch_tiktok_data_handlers.

End Scraper.

(** The requests the two fetches issue. *)
Definition metadata_request (settings : Settings) (self : TikTokScraper) (url : string)
  : Request :=
  {| endpoint := base_url self +:+ SUPADATA_METADATA_ENDPOINT settings;
     params := {[ "url" := url ]};
     headers := _get_headers self;
     req_timeout := timeout self |}.

Definition transcript_request (settings : Settings) (self : TikTokScraper) (url : string)
  : Request :=
  {| endpoint := base_url self +:+ SUPADATA_TRANSCRIPT_ENDPOINT settings;
     params := {[ "url" := url ]};
     headers := _get_headers self;
     req_timeout := timeout self |}.

(** ** The fallback chain of the response mapper, in the spec's words *)

(** The canonical fields of the metadata record. *)
Inductive field :=
| Title | Description | AudioUrl | Author | Likes | Views | Shares | Comments.

Definition field_of (f : field) (m : TikTokMetadata.t) : value :=
  match f with
  | Title => TikTokMetadata.title m
  | Description => TikTokMetadata.description m
  | AudioUrl => TikTokMetadata.audio_url m
  | Author => TikTokMetadata.author m
  | Likes => TikTokMetadata.likes m
  | Views => TikTokMetadata.views m
  | Shares => TikTokMetadata.shares m
  | Comments => TikTokMetadata.comments m
  end.

(** The flat top-level key tried first. *)
Definition canonical_key (f : field) : string :=
  match f with
  | Title => "title"
  | Description => "description"
  | AudioUrl => "audio_url"
  | Author => "author"
  | Likes => "likes"
  | Views => "views"
  | Shares => "shares"
  | Comments => "comments"
  end.

(** The provider-specific alias tried second, as a path into the payload. *)
Definition provider_alias (f : field) : list string :=
  match f with
  | Title => ["desc"]
  | Description => ["desc"]
  | AudioUrl => ["music"; "playUrl"]
  | Author => ["author"; "uniqueId"]
  | Likes => ["stats"; "diggCount"]
  | Views => ["stats"; "playCount"]
  | Shares => ["stats"; "shareCount"]
  | Comments => ["stats"; "commentCount"]
  end.

(** The value found by following a path of keys through nested objects,
    when every key on the way is present. *)
Fixpoint lookup_path (v : value) (path : list string) : option value :=
  match path with
  | [] => Some v
  | key :: rest =>
      match v with
      | VDict d => match d !! key with
                   | Some v' => lookup_path v' rest
                   | None => None
                   end
      | _ => None
      end
  end.

(** The chain in the spec's words: the value under the canonical key
    when that key is present, else the value at the provider alias, and
    null when neither is present. *)
Definition presence_chain (f : field) (data : gmap string value) : value :=
  match data !! canonical_key f with
  | Some v => v
  | None => default VNone (lookup_path (VDict data) (provider_alias f))
  end.

(** The chain with truth value in place of presence: the value under the
    canonical key when it is truthy, else the value at the provider alias,
    and null when that is absent as well. *)
Definition fallback_chain (f : field) (data : gmap string value) : value :=
  match data !! canonical_key f with
  | Some v => if truthy v then v
              else default VNone (lookup_path (VDict data) (provider_alias f))
  | None => default VNone (lookup_path (VDict data) (provider_alias f))
  end.

(** The payloads on which the mapper meets no malformed nested object:
    each of "music", "author" and "stats" is absent, an object, or not
    consulted because the canonical key has a truthy value. *)
Definition nested_ok (data : gmap string value) (canonical parent : string) : bool :=
  truthy (default VNone (data !! canonical))
  || match data !! parent with
     | None | Some (VDict _) => true
     | Some _ => false
     end.

Definition well_shaped (data : gmap string value) : bool :=
  nested_ok data "audio_url" "music"
  && nested_ok data "author" "author"
  && nested_ok data "likes" "stats"
  && nested_ok data "views" "stats"
  && nested_ok data "shares" "stats"
  && nested_ok data "comments" "stats".

(** ** URL normalisation *)

(** Steps 1 to 3 of [fetch_tiktok_data] (lines 174-184, with the handlers
    of lines 219-227): the cleaned URL, the resolved URL and the video id. *)
Definition normalize (env : Env) (video_url : string) : result (string * string * value) :=
  try_except
    (cleaned_url <- clean_tiktok_url env video_url;;
     resolved_url <- resolve_short_url env cleaned_url;;
     video_id <- extract_video_id env resolved_url;;
     Ok (cleaned_url, resolved_url, video_id))
    fetch_tiktok_data_handlers.

(** ** The URL normaliser (app/utils/url_utils.py) *)

Module UrlUtils.

(** Modelled from the spec: what the description of the URL normaliser
    leaves to the platform, app/utils/url_utils.py being absent from the
    sources: the removal of tracking query parameters, the accepted
    domain pattern, the known short-link domain pattern, the redirect
    round trip (no answer on a network error or a non-redirect
    response) and the pattern of the video identifier. *)
Record Platform := {
  strip_tracking : string -> string;
  accepted_domain : string -> bool;
  short_link_domain : string -> bool;
  follow_redirects : string -> option string;
  video_id_pattern : string -> option string
}.

Fixpoint lstrip (s : string) : string :=
  match s with
  | String c s' => if Ascii.is_space c then lstrip s' else s
  | EmptyString => EmptyString
  end.

(** Surrounding whitespace removed, as Python's [str.strip()]. *)
Definition strip (s : string) : string :=
  String.rev (lstrip (String.rev (lstrip s))).

Section Normalizer.
Variable platform : Platform.

(** Modelled from the spec: [clean_tiktok_url], step 1 of the
    normaliser: strip surrounding whitespace and tracking query
    parameters, reject empty input, and reject what does not match
    the accepted domain pattern. *)
Definition clean_tiktok_url (url : string) : result string :=
  let cleaned := strip_tracking platform (strip url) in
  if String.eqb cleaned "" then Raise (ValueError "URL cannot be empty")
  else if accepted_domain platform cleaned then Ok cleaned
  else Raise (ValueError "Not a valid TikTok URL").

(** Modelled from the spec: [resolve_short_url], step 2: a URL that
    matches the short-link pattern takes one redirect round trip,
    whose failure is an invalid input; any other URL is returned as
    it is. *)
Definition resolve_short_url (url : string) : result string :=
  if short_link_domain platform url then
    match follow_redirects platform url with
    | Some final => Ok final
    | None => Raise (ValueError "Could not resolve short URL")
    end
  else Ok url.

(** Modelled from the spec: [extract_video_id], step 3: the
    identifier is taken from the canonical path, and a path without
    one is an invalid input. *)
Definition extract_video_id (url : string) : result value :=
  match video_id_pattern platform url with
  | Some id => Ok (VStr id)
  | None => Raise (ValueError "Could not extract video ID")
  end.
End Normalizer.

(** The environment of the scraper when the URL helpers are these. *)
Definition env (platform : Platform) (client : AsyncClient) (first : task) : Env :=
  Build_Env (clean_tiktok_url platform) (resolve_short_url platform)
            (extract_video_id platform) client first.

(** *** The scenario of the testable properties *)

Definition contains (needle s : string) : bool :=
  match String.index 0 needle s with Some _ => true | None => false end.

Definition strip_query (s : string) : string :=
  match String.index 0 "?" s with
  | Some i => String.substring 0 i s
  | None => s
  end.

Fixpoint take_digits (s : string) : string :=
  match s with
  | String c s' => match Ascii.is_nat c with
                   | Some _ => String c (take_digits s')
                   | None => EmptyString
                   end
  | EmptyString => EmptyString
  end.

Definition digits_after_video (s : string) : option string :=
  match String.index 0 "/video/" s with
  | Some i =>
      let id := take_digits (String.substring (i + 7) (String.length s) s) in
      if String.eqb id "" then None else Some id
  | None => None
  end.

Definition short_link : string := "https://vt.tiktok.com/ABC123/".
Definition canonical_link : string :=
  "https://www.tiktok.com/@user/video/7000000000000000000".

(** Modelled from the spec: the platform of the scenario in which
    "https://vt.tiktok.com/ABC123/" resolves, via redirect, to
    "https://www.tiktok.com/@user/video/7000000000000000000", whose
    video id is "7000000000000000000". *)
Definition tiktok : Platform := {|
  strip_tracking := strip_query;
  accepted_domain := contains "tiktok.com";
  short_link_domain := contains "vt.tiktok.com";
  follow_redirects := fun url =>
    if String.eqb url short_link then Some canonical_link else None;
  video_id_pattern := digits_after_video
|}.

End UrlUtils.

(** Step 5 of [fetch_tiktok_data] on its own (lines 198-217): the record
    built from the resolved URL, the video id, the metadata and the
    transcript. *)
Definition combine (resolved_url : string) (video_id : value)
    (metadata : TikTokMetadata.t) (transcript : option TikTokTranscript.t)
  : TikTokData.t :=
  let has_transcript :=
    match transcript with
    | Some tr => is_not_None (TikTokTranscript.text tr)
    | None => false
    end in
  TikTokData.mk
    resolved_url
    video_id
    (TikTokMetadata.title metadata)
    (TikTokMetadata.description metadata)
    (TikTokMetadata.audio_url metadata)
    (TikTokMetadata.author metadata)
    (TikTokMetadata.likes metadata)
    (TikTokMetadata.views metadata)
    (TikTokMetadata.shares metadata)
    (TikTokMetadata.comments metadata)
    (match transcript with Some tr => TikTokTranscript.text tr | None => VNone end)
    (match transcript with Some tr => TikTokTranscript.language tr | None => VNone end)
    has_transcript.

(** ** A concrete deployment, used in the examples *)

Definition example_settings : Settings := default_settings "secret".

Definition example_scraper : TikTokScraper :=
  {| base_url := "https://api.supadata.ai/v1"; api_key := "secret"; timeout := 30 |}.

Definition example_url : string :=
  "https://www.tiktok.com/@user/video/7000000000000000000".

(** A provider that answers the metadata endpoint with [metadata] and
    any other endpoint with [transcript]. *)
Definition example_client (metadata transcript : result Response.t) : AsyncClient :=
  fun request =>
    if String.eqb (endpoint request) "https://api.supadata.ai/v1/tiktok/metadata"
    then metadata else transcript.

(** URL helpers that accept the URL as it is. *)
Definition example_env (metadata transcript : result Response.t) : Env :=
  {| clean_tiktok_url := fun u => Ok u;
     resolve_short_url := fun u => Ok u;
     extract_video_id := fun _ => Ok (VStr "7000000000000000000");
     new_AsyncClient := example_client metadata transcript;
     completes_first := metadata_task |}.

Definition respond (status : Z) (text : string) (json : result value)
  : result Response.t :=
  Ok (Response.mk status text json).

Definition not_json : result value :=
  Raise (ValueError "Expecting value: line 1 column 1 (char 0)").

(** {"desc": "hello", "stats": {"diggCount": 5}} *)
Definition metadata_payload : value :=
  VDict {[ "desc" := VStr "hello";
           "stats" := VDict {[ "diggCount" := VInt 5 ]} ]}.

(** {"transcript": "hi there", "lang": "en"} *)
Definition transcript_payload : value :=
  VDict {[ "transcript" := VStr "hi there"; "lang" := VStr "en" ]}.

(** The canonical fields as the final record carries them. *)
Definition record_field (f : field) (r : TikTokData.t) : value :=
  match f with
  | Title => TikTokData.title r
  | Description => TikTokData.description r
  | AudioUrl => TikTokData.audio_url r
  | Author => TikTokData.author r
  | Likes => TikTokData.likes r
  | Views => TikTokData.views r
  | Shares => TikTokData.shares r
  | Comments => TikTokData.comments r
  end.

(** The errors [fetch_tiktok_data] documents: the invalid-URL error, the
    auth and credits errors, and the API error. *)
Definition documented_error (e : exn) : bool :=
  match e with
  | InvalidTikTokURLError _ | SupadataAuthError | SupadataCreditsExhausted
  | SupadataAPIError _ _ => true
  | ValueError _ | HTTPError _ | AttributeError _ | OtherException _
  | OutsideException _ => false
  end.

(** A computation whose only failure is an [AttributeError]. *)
Definition only_AttributeError {A} (r : result A) : Prop :=
  forall e, r = Raise e -> exists msg, e = AttributeError msg.

(** * Properties *)

(** ** The error monad *)

Lemma bind_Ok_inv {A B} (r : result A) (k : A -> result B) (b : B) :
  bind r k = Ok b -> exists a, r = Ok a /\ k a = Ok b.
Proof. destruct r as [a|e]; simpl; [eauto | discriminate]. Qed.

Lemma try_except_Ok_inv {A} (body : result A) (handler : exn -> exn) (a : A) :
  try_except body handler = Ok a -> body = Ok a.
Proof. destruct body; simpl; congruence. Qed.

Lemma gather_Ok_inv {A B} (first : task) (a : result A) (b : result B) (x : A) (y : B) :
  gather first a b = Ok (x, y) -> a = Ok x /\ b = Ok y.
Proof. destruct a, b; simpl; intros H; inversion H; auto. Qed.

Lemma gather_Raise_l {A B} (first : task) (e : exn) (y : B) :
  gather first (Raise e : result A) (Ok y) = Raise e.
Proof. reflexivity. Qed.

Lemma gather_Raise_r {A B} (first : task) (e : exn) (x : A) :
  gather first (Ok x) (Raise e : result B) = Raise e.
Proof. reflexivity. Qed.

(** ** Truth values *)

Lemma truthy_is_not_None (v : value) : truthy v = true -> is_not_None v = true.
Proof. destruct v; simpl; congruence. Qed.

Lemma is_not_None_spec (v : value) : is_not_None v = true <-> v <> VNone.
Proof. destruct v; simpl; split; congruence. Qed.

Lemma or__truthy (a : value) (b : result value) :
  truthy a = true -> or_ a b = Ok a.
Proof. unfold or_. intros ->. reflexivity. Qed.

Lemma or__falsy (a : value) (b : result value) :
  truthy a = false -> or_ a b = b.
Proof. unfold or_. intros ->. reflexivity. Qed.

(** ** The orchestrator, step by step *)

Section Orchestrator.
Variable settings : Settings.
Variable env : Env.
Variable self : TikTokScraper.

(** A successful run went through every step. *)
Lemma fetch_tiktok_data_Ok_inv (video_url : string) (r : TikTokData.t) :
  fetch_tiktok_data settings env self video_url = Ok r ->
  exists cleaned_url resolved_url video_id metadata transcript,
    clean_tiktok_url env video_url = Ok cleaned_url
    /\ resolve_short_url env cleaned_url = Ok resolved_url
    /\ extract_video_id env resolved_url = Ok video_id
    /\ _fetch_metadata settings self resolved_url (new_AsyncClient env) = Ok metadata
    /\ _fetch_transcript settings self resolved_url (new_AsyncClient env) = Ok transcript
    /\ r = combine resolved_url video_id metadata transcript.
Proof.
  unfold fetch_tiktok_data. intros H.
  apply try_except_Ok_inv in H.
  apply bind_Ok_inv in H as (cleaned_url & Hc & H).
  apply bind_Ok_inv in H as (resolved_url & Hr & H).
  apply bind_Ok_inv in H as (video_id & Hv & H).
  apply bind_Ok_inv in H as ([metadata transcript] & Hg & H).
  apply gather_Ok_inv in Hg as [Hm Ht].
  exists cleaned_url, resolved_url, video_id, metadata, transcript.
  repeat split; try assumption.
  unfold combine. congruence.
Qed.

(** When every step succeeds, so does the run. *)
Lemma fetch_tiktok_data_Ok_intro
    (video_url cleaned_url resolved_url : string) (video_id : value)
    (metadata : TikTokMetadata.t) (transcript : option TikTokTranscript.t) :
  clean_tiktok_url env video_url = Ok cleaned_url ->
  resolve_short_url env cleaned_url = Ok resolved_url ->
  extract_video_id env resolved_url = Ok video_id ->
  _fetch_metadata settings self resolved_url (new_AsyncClient env) = Ok metadata ->
  _fetch_transcript settings self resolved_url (new_AsyncClient env) = Ok transcript ->
  fetch_tiktok_data settings env self video_url
  = Ok (combine resolved_url video_id metadata transcript).
Proof.
  intros Hc Hr Hv Hm Ht. unfold fetch_tiktok_data.
  rewrite Hc; simpl. rewrite Hr; simpl. rewrite Hv; simpl.
  rewrite Hm, Ht. reflexivity.
Qed.

End Orchestrator.

(** ** What the mapper can raise *)

Lemma only_AttributeError_Ok {A} (a : A) : only_AttributeError (Ok a).
Proof. intros e H. discriminate. Qed.

Lemma only_AttributeError_bind {A B} (r : result A) (k : A -> result B) :
  only_AttributeError r -> (forall a, only_AttributeError (k a)) ->
  only_AttributeError (bind r k).
Proof.
  intros Hr Hk e. destruct r as [a|e']; simpl.
  - apply Hk.
  - intros [= <-]. apply Hr. reflexivity.
Qed.

Lemma only_AttributeError_get (v : value) (key : string) :
  only_AttributeError (get v key).
Proof. intros e. destruct v; simpl; intros [= <-]; eauto. Qed.

Lemma only_AttributeError_get_default (v : value) (key : string) (dflt : value) :
  only_AttributeError (get_default v key dflt).
Proof. intros e. destruct v; simpl; intros [= <-]; eauto. Qed.

Lemma only_AttributeError_or_ (a : value) (b : result value) :
  only_AttributeError b -> only_AttributeError (or_ a b).
Proof. unfold or_. destruct (truthy a); [intros _; apply only_AttributeError_Ok | auto]. Qed.

Create HintDb mapper.

#[local] Hint Resolve only_AttributeError_Ok only_AttributeError_get
  only_AttributeError_get_default only_AttributeError_or_ : mapper.

Ltac mapper_step :=
  first [ apply only_AttributeError_bind; [| intros ? ]
        | apply only_AttributeError_or_
        | solve [ auto with mapper ] ].

Lemma parse_metadata_only_AttributeError (data : value) :
  only_AttributeError (parse_metadata data).
Proof. unfold parse_metadata. repeat mapper_step. Qed.

Lemma parse_transcript_only_AttributeError (data : value) :
  only_AttributeError (parse_transcript data).
Proof.
  unfold parse_transcript. repeat mapper_step.
  destruct (truthy _); apply only_AttributeError_Ok.
Qed.

(** The transport handler of the two fetches leaves such a computation
    as it is. *)
Lemma try_except_only_AttributeError {A} (r : result A) (on_http : string -> exn) :
  only_AttributeError r ->
  try_except r (fun e => match e with HTTPError msg => on_http msg | _ => e end) = r.
Proof.
  intros Hr. destruct r as [a|e]; simpl; [reflexivity|].
  destruct (Hr e eq_refl) as [msg ->]. reflexivity.
Qed.

(** On an object, the transcript mapper returns. *)
Lemma parse_transcript_dict (d : gmap string value) :
  exists tr, parse_transcript (VDict d) = Ok tr.
Proof.
  unfold parse_transcript, or_; simpl.
  destruct (truthy (default VNone (d !! "text"))); simpl;
    destruct (truthy (default VNone (d !! "language"))); simpl;
    destruct (truthy _); eauto.
Qed.

(** A transcript object always carries a truthy text. *)
Lemma parse_transcript_Some_truthy (data : value) (tr : TikTokTranscript.t) :
  parse_transcript data = Ok (Some tr) -> truthy (TikTokTranscript.text tr) = true.
Proof.
  unfold parse_transcript. intros H.
  apply bind_Ok_inv in H as (transcript_text & _ & H).
  apply bind_Ok_inv in H as (language & _ & H).
  destruct (truthy transcript_text) eqn:Ht; inversion H; subst. exact Ht.
Qed.

(** ** The upstream client: status codes *)

Section UpstreamClient.
Variable settings : Settings.
Variable self : TikTokScraper.
Variable url : string.
Variable client : AsyncClient.

Lemma _fetch_metadata_401 (r : Response.t) :
client (metadata_request settings self url) = Ok r ->
Response.status_code r = 401 ->
_fetch_metadata settings self url client = Raise SupadataAuthError.
Proof.
intros Hget Hs. unfold _fetch_metadata. fold (metadata_request settings self url).
rewrite Hget; simpl. rewrite Hs. reflexivity.
Qed.





Lemma _fetch_transcript_404 (r : Response.t) :
client (transcript_request settings self url) = Ok r ->
Response.status_code r = 404 ->
_fetch_transcript settings self url client = Ok None.
Proof.
intros Hget Hs. unfold _fetch_transcript. fold (transcript_request settings self url).
rewrite Hget; simpl. rewrite Hs. reflexivity.
Qed.




Lemma _fetch_transcript_success (r : Response.t) (data : value) :
client (transcript_request settings self url) = Ok r ->
Response.status_code r < 400 ->
Response.json r = Ok data ->
_fetch_transcript settings self url client = parse_transcript data.
Proof.
intros Hget Hlt Hjson. unfold _fetch_transcript.
fold (transcript_request settings self url). rewrite Hget; simpl.
destruct (Z.eqb_spec (Response.status_code r) 404); [lia|].
destruct (Z.eqb_spec (Response.status_code r) 401); [lia|].
destruct (Z.eqb_spec (Response.status_code r) 402); [lia|].
rewrite Z.geb_leb. destruct (Z.leb_spec 400 (Response.status_code r)); [lia|].
rewrite Hjson; simpl.
apply try_except_only_AttributeError, parse_transcript_only_AttributeError.
Qed.


(** Whatever [_fetch_transcript] returns as a transcript has a truthy text. *)
Lemma _fetch_transcript_Some_truthy (tr : TikTokTranscript.t) :
_fetch_transcript settings self url client = Ok (Some tr) ->
truthy (TikTokTranscript.text tr) = true.
Proof.
unfold _fetch_transcript. intros H. apply try_except_Ok_inv in H.
apply bind_Ok_inv in H as (r & _ & H).
destruct (Response.status_code r =? 404); [discriminate|].
destruct (Response.status_code r =? 401); [discriminate|].
destruct (Response.status_code r =? 402); [discriminate|].
destruct (Response.status_code r >=? 400); [discriminate|].
apply bind_Ok_inv in H as (data & _ & H).
eapply parse_transcript_Some_truthy, H.
Qed.

End UpstreamClient.



(** ** The orchestrator: transcript absence *)

(** C1. When the URL is normalised, the metadata fetch succeeds and the
    transcript request is answered with HTTP 404, [_fetch_transcript]
    returns [None] rather than raising, and [fetch_tiktok_data] returns a
    record whose [transcript] is [None] and whose [has_transcript] is
    false. *)
Theorem C1_transcript_404_is_absence
    (settings : Settings) (env : Env) (self : TikTokScraper)
    (video_url cleaned_url resolved_url : string) (video_id : value)
    (metadata : TikTokMetadata.t) (response : Response.t) :
  clean_tiktok_url env video_url = Ok cleaned_url ->
  resolve_short_url env cleaned_url = Ok resolved_url ->
  extract_video_id env resolved_url = Ok video_id ->
  _fetch_metadata settings self resolved_url (new_AsyncClient env) = Ok metadata ->
  new_AsyncClient env (transcript_request settings self resolved_url) = Ok response ->
  Response.status_code response = 404 ->
  _fetch_transcript settings self resolved_url (new_AsyncClient env) = Ok None
  /\ exists record,
       fetch_tiktok_data settings env self video_url = Ok record
       /\ TikTokData.transcript record = VNone
       /\ TikTokData.transcript_language record = VNone
       /\ TikTokData.has_transcript record = false.
Proof.
  intros Hc Hr Hv Hm Hget H404.
  pose proof (_fetch_transcript_404 settings self resolved_url _ response Hget H404) as Ht.
  split; [exact Ht|].
  exists (combine resolved_url video_id metadata None).
  split; [| repeat split].
  eapply fetch_tiktok_data_Ok_intro; eassumption.
Qed.

(** The scenario "metadata 200 with {"desc": "hello", "stats":
    {"diggCount": 5}} and transcript 404". *)
Lemma C1_transcript_404_is_absence_witness :
  _fetch_transcript example_settings example_scraper example_url
    (example_client (respond 200 "" (Ok metadata_payload)) (respond 404 "Not Found" not_json))
  = Ok None
  /\ exists record,
       fetch_tiktok_data example_settings
         (example_env (respond 200 "" (Ok metadata_payload))
                      (respond 404 "Not Found" not_json))
         example_scraper example_url
       = Ok record
       /\ TikTokData.transcript record = VNone
       /\ TikTokData.transcript_language record = VNone
       /\ TikTokData.has_transcript record = false.
Proof.
  eapply (C1_transcript_404_is_absence example_settings
            (example_env (respond 200 "" (Ok metadata_payload))
                         (respond 404 "Not Found" not_json))
            example_scraper example_url example_url example_url
            (VStr "7000000000000000000")
            (TikTokMetadata.mk (VStr "hello") (VStr "hello") VNone VNone
                               (VInt 5) VNone VNone VNone)
            (Response.mk 404 "Not Found" not_json));
    reflexivity.
Defined.


(** On an object with no truthy value under "text" or "transcript", the
    transcript mapper returns [None]. *)
Lemma parse_transcript_no_text (d : gmap string value) :
  truthy (default VNone (d !! "text")) = false ->
  truthy (default VNone (d !! "transcript")) = false ->
  parse_transcript (VDict d) = Ok None.
Proof.
  intros Htext Htranscript. unfold parse_transcript; simpl.
  rewrite (or__falsy _ _ Htext); simpl.
  unfold or_ at 1. destruct (truthy (default VNone (d !! "language"))); simpl;
    rewrite Htranscript; reflexivity.
Qed.

(** C9. A transcript response with a 2xx status whose JSON body is an
    object with no non-empty value under "text" or "transcript" makes
    [_fetch_transcript] return [None]; with the URL normalised and the
    metadata fetched, [fetch_tiktok_data] then succeeds with
    [has_transcript] false. *)
Theorem C9_empty_transcript_body_is_absence
    (settings : Settings) (env : Env) (self : TikTokScraper)
    (video_url cleaned_url resolved_url : string) (video_id : value)
    (metadata : TikTokMetadata.t) (response : Response.t) (body : gmap string value) :
  clean_tiktok_url env video_url = Ok cleaned_url ->
  resolve_short_url env cleaned_url = Ok resolved_url ->
  extract_video_id env resolved_url = Ok video_id ->
  _fetch_metadata settings self resolved_url (new_AsyncClient env) = Ok metadata ->
  new_AsyncClient env (transcript_request settings self resolved_url) = Ok response ->
  200 <= Response.status_code response < 300 ->
  Response.json response = Ok (VDict body) ->
  truthy (default VNone (body !! "text")) = false ->
  truthy (default VNone (body !! "transcript")) = false ->
  _fetch_transcript settings self resolved_url (new_AsyncClient env) = Ok None
  /\ exists record,
       fetch_tiktok_data settings env self video_url = Ok record
       /\ TikTokData.transcript record = VNone
       /\ TikTokData.has_transcript record = false.
Proof.
  intros Hc Hr Hv Hm Hget Hstatus Hjson Htext Htranscript.
  assert (Ht : _fetch_transcript settings self resolved_url (new_AsyncClient env) = Ok None).
  { rewrite (_fetch_transcript_success settings self resolved_url _ response (VDict body));
      [apply parse_transcript_no_text; assumption | assumption | lia | assumption]. }
  split; [exact Ht|].
  exists (combine resolved_url video_id metadata None).
  split; [| split; reflexivity].
  eapply fetch_tiktok_data_Ok_intro; eassumption.
Qed.

(** A 200 whose body is {"text": "", "lang": "en"}. *)
Lemma C9_empty_transcript_body_is_absence_witness :
  _fetch_transcript example_settings example_scraper example_url
    (example_client (respond 200 "" (Ok metadata_payload))
       (respond 200 "" (Ok (VDict {[ "text" := VStr ""; "lang" := VStr "en" ]}))))
  = Ok None
  /\ exists record,
       fetch_tiktok_data example_settings
         (example_env (respond 200 "" (Ok metadata_payload))
            (respond 200 "" (Ok (VDict {[ "text" := VStr ""; "lang" := VStr "en" ]}))))
         example_scraper example_url
       = Ok record
       /\ TikTokData.transcript record = VNone
       /\ TikTokData.has_transcript record = false.
Proof.
  eapply (C9_empty_transcript_body_is_absence example_settings
            (example_env (respond 200 "" (Ok metadata_payload))
               (respond 200 "" (Ok (VDict {[ "text" := VStr ""; "lang" := VStr "en" ]}))))
            example_scraper example_url example_url example_url
            (VStr "7000000000000000000")
            (TikTokMetadata.mk (VStr "hello") (VStr "hello") VNone VNone
                               (VInt 5) VNone VNone VNone)
            (Response.mk 200 ""
               (Ok (VDict {[ "text" := VStr ""; "lang" := VStr "en" ]})))
            {[ "text" := VStr ""; "lang" := VStr "en" ]});
    first [ reflexivity | simpl; lia ].
Defined.

(** ** The orchestrator: the transcript fields of the record *)

(** C6. In every record [fetch_tiktok_data] returns, [has_transcript] is
    true exactly when the transcript fetch returned a transcript whose
    text is non-empty; a run whose transcript is absent, or would carry an
    empty text, has [has_transcript] false. *)
Theorem C6_has_transcript_derivation
    (settings : Settings) (env : Env) (self : TikTokScraper)
    (video_url : string) (record : TikTokData.t) :
  fetch_tiktok_data settings env self video_url = Ok record ->
  exists transcript,
    _fetch_transcript settings self (TikTokData.url record) (new_AsyncClient env)
    = Ok transcript
    /\ TikTokData.has_transcript record
       = match transcript with
         | Some tr => truthy (TikTokTranscript.text tr)
         | None => false
         end
    /\ TikTokData.has_transcript record = truthy (TikTokData.transcript record)
    /\ (transcript = None -> TikTokData.has_transcript record = false)
    /\ (forall tr, transcript = Some tr -> truthy (TikTokTranscript.text tr) = false ->
        TikTokData.has_transcript record = false).
Proof.
  intros H.
  apply fetch_tiktok_data_Ok_inv in H
    as (cleaned_url & resolved_url & video_id & metadata & transcript
        & _ & _ & _ & _ & Ht & ->).
  exists transcript. simpl.
  assert (Heq : match transcript with
                | Some tr => is_not_None (TikTokTranscript.text tr)
                | None => false
                end
                = match transcript with
                  | Some tr => truthy (TikTokTranscript.text tr)
                  | None => false
                  end).
  { destruct transcript as [tr|]; [|reflexivity].
    pose proof (_fetch_transcript_Some_truthy _ _ _ _ _ Ht) as Htruthy.
    rewrite Htruthy. apply truthy_is_not_None, Htruthy. }
  split; [exact Ht|]. split; [exact Heq|]. split; [| split].
  - rewrite Heq. destruct transcript; reflexivity.
  - intros ->. reflexivity.
  - intros tr -> Hfalsy. rewrite Heq. exact Hfalsy.
Qed.

(** The scenario "metadata 200, transcript 200 with {"transcript":
    "hi there", "lang": "en"}": the flag is true. *)
Lemma C6_has_transcript_derivation_witness :
  exists record,
    fetch_tiktok_data example_settings
      (example_env (respond 200 "" (Ok metadata_payload))
                   (respond 200 "" (Ok transcript_payload)))
      example_scraper example_url
    = Ok record
    /\ TikTokData.has_transcript record = true
    /\ exists transcript,
         _fetch_transcript example_settings example_scraper (TikTokData.url record)
           (example_client (respond 200 "" (Ok metadata_payload))
                           (respond 200 "" (Ok transcript_payload)))
         = Ok transcript
         /\ TikTokData.has_transcript record
            = match transcript with
              | Some tr => truthy (TikTokTranscript.text tr)
              | None => false
              end.
Proof.
  eexists. split; [reflexivity|]. split; [reflexivity|].
  destruct (C6_has_transcript_derivation example_settings
              (example_env (respond 200 "" (Ok metadata_payload))
                           (respond 200 "" (Ok transcript_payload)))
              example_scraper example_url _ eq_refl)
    as (transcript & Ht & Heq & _).
  exists transcript. split; [exact Ht | exact Heq].
Defined.

(** C10. In every record [fetch_tiktok_data] returns, [has_transcript] is
    true if and only if [transcript] is not [None], and a record whose
    [transcript] is [None] has [transcript_language] [None] as well. *)
Theorem C10_transcript_fields_consistent
    (settings : Settings) (env : Env) (self : TikTokScraper)
    (video_url : string) (record : TikTokData.t) :
  fetch_tiktok_data settings env self video_url = Ok record ->
  (TikTokData.has_transcript record = true <-> TikTokData.transcript record <> VNone)
  /\ (TikTokData.transcript record = VNone ->
      TikTokData.transcript_language record = VNone).
Proof.
  intros H.
  apply fetch_tiktok_data_Ok_inv in H
    as (cleaned_url & resolved_url & video_id & metadata & transcript
        & _ & _ & _ & _ & Ht & ->).
  simpl. destruct transcript as [tr|].
  - pose proof (_fetch_transcript_Some_truthy _ _ _ _ _ Ht) as Htruthy.
    apply truthy_is_not_None in Htruthy.
    split.
    + rewrite Htruthy. split; [intros _; apply is_not_None_spec, Htruthy | reflexivity].
    + intros Hnone. apply is_not_None_spec in Htruthy. contradiction.
  - split; [| reflexivity]. split; [discriminate | intros Hne; contradiction].
Qed.

(** Both shapes of the invariant: the record of the transcript scenario,
    and the record of a run whose transcript request is answered 404. *)
Lemma C10_transcript_fields_consistent_witness :
  (exists record,
     fetch_tiktok_data example_settings
       (example_env (respond 200 "" (Ok metadata_payload))
                    (respond 200 "" (Ok transcript_payload)))
       example_scraper example_url
     = Ok record
     /\ TikTokData.transcript record = VStr "hi there"
     /\ (TikTokData.has_transcript record = true <-> TikTokData.transcript record <> VNone)
     /\ (TikTokData.transcript record = VNone ->
         TikTokData.transcript_language record = VNone))
  /\ (exists record,
        fetch_tiktok_data example_settings
          (example_env (respond 200 "" (Ok metadata_payload)) (respond 404 "" not_json))
          example_scraper example_url
        = Ok record
        /\ TikTokData.transcript record = VNone
        /\ (TikTokData.has_transcript record = true <-> TikTokData.transcript record <> VNone)
        /\ (TikTokData.transcript record = VNone ->
            TikTokData.transcript_language record = VNone)).
Proof.
  split.
  - eexists. split; [reflexivity|]. split; [reflexivity|].
    exact (C10_transcript_fields_consistent example_settings
             (example_env (respond 200 "" (Ok metadata_payload))
                          (respond 200 "" (Ok transcript_payload)))
             example_scraper example_url _ eq_refl).
  - eexists. split; [reflexivity|]. split; [reflexivity|].
    exact (C10_transcript_fields_consistent example_settings
             (example_env (respond 200 "" (Ok metadata_payload)) (respond 404 "" not_json))
             example_scraper example_url _ eq_refl).
Defined.


(** ** The response mapper: the fallback chain *)

(** A field whose alias is another top-level key ("desc"). *)
Lemma flat_field_Ok (d : gmap string value) (canonical alias : string) :
  (a <- get (VDict d) canonical;; or_ a (get (VDict d) alias))
  = Ok (match d !! canonical with
        | Some v => if truthy v then v
                    else default VNone (lookup_path (VDict d) [alias])
        | None => default VNone (lookup_path (VDict d) [alias])
        end).
Proof.
  simpl. unfold or_.
  destruct (d !! canonical) as [v|]; simpl;
    [destruct (truthy v); [reflexivity|] |];
    destruct (d !! alias); reflexivity.
Qed.

(** A field whose alias lives in a nested object: when the expression
    returns, it returns what the fallback chain says. *)
Lemma nested_field_Ok_inv (d : gmap string value) (canonical parent key : string)
    (v : value) :
  (a <- get (VDict d) canonical;;
   or_ a (m <- get_default (VDict d) parent (VDict ∅);; get m key)) = Ok v ->
  v = match d !! canonical with
      | Some x => if truthy x then x
                  else default VNone (lookup_path (VDict d) [parent; key])
      | None => default VNone (lookup_path (VDict d) [parent; key])
      end.
Proof.
  simpl. unfold or_.
  destruct (d !! canonical) as [x|]; simpl;
    [destruct (truthy x); [congruence|] |];
    (destruct (d !! parent) as [[]|]; simpl; try discriminate;
     [ match goal with |- context [?m !! key] => destruct (m !! key) end;
       simpl; congruence
     | rewrite lookup_empty; simpl; congruence ]).
Qed.

(** The nested expression returns exactly on the payloads where the
    nested object, if consulted, is absent or an object. *)
Lemma nested_field_Ok (d : gmap string value) (canonical parent key : string) :
  nested_ok d canonical parent = true ->
  exists v, (a <- get (VDict d) canonical;;
             or_ a (m <- get_default (VDict d) parent (VDict ∅);; get m key)) = Ok v.
Proof.
  unfold nested_ok. simpl. unfold or_.
  destruct (truthy (default VNone (d !! canonical))); simpl; [eauto|].
  destruct (d !! parent) as [[]|]; simpl; try discriminate; eauto.
Qed.

Lemma nested_field_Raise (d : gmap string value) (canonical parent key : string) :
  nested_ok d canonical parent = false ->
  exists msg, (a <- get (VDict d) canonical;;
               or_ a (m <- get_default (VDict d) parent (VDict ∅);; get m key))
              = Raise (AttributeError msg).
Proof.
  unfold nested_ok. simpl. unfold or_.
  destruct (truthy (default VNone (d !! canonical))); simpl; [discriminate|].
  destruct (d !! parent) as [[]|]; simpl; try discriminate; eauto.
Qed.

(** On a well-shaped payload the mapper returns a record. *)
Lemma parse_metadata_well_shaped (d : gmap string value) :
  well_shaped d = true -> exists m, parse_metadata (VDict d) = Ok m.
Proof.
  unfold well_shaped. intros H.
  repeat (apply andb_prop in H as [H ?]).
  unfold parse_metadata.
  rewrite !flat_field_Ok. cbn [bind].
  repeat match goal with
         | |- context [bind (get (VDict d) ?c)
                         (fun a => or_ a (bind (get_default (VDict d) ?p _)
                                            (fun m => get m ?k)))] =>
             let Hv := fresh in
             destruct (nested_field_Ok d c p k ltac:(assumption)) as [? Hv];
             rewrite Hv; clear Hv; cbn [bind]
         end.
  eauto.
Qed.

(** On any other object it raises an [AttributeError]. *)
Lemma parse_metadata_ill_shaped (d : gmap string value) :
  well_shaped d = false -> exists msg, parse_metadata (VDict d) = Raise (AttributeError msg).
Proof.
  intros H.
  destruct (parse_metadata (VDict d)) as [m|e] eqn:Hp.
  - exfalso. revert Hp. unfold parse_metadata. intros Hp.
    apply bind_Ok_inv in Hp as (title & _ & Hp).
    apply bind_Ok_inv in Hp as (description & _ & Hp).
    apply bind_Ok_inv in Hp as (audio_url & Haudio & Hp).
    apply bind_Ok_inv in Hp as (author & Hauthor & Hp).
    apply bind_Ok_inv in Hp as (likes & Hlikes & Hp).
    apply bind_Ok_inv in Hp as (views & Hviews & Hp).
    apply bind_Ok_inv in Hp as (shares & Hshares & Hp).
    apply bind_Ok_inv in Hp as (comments & Hcomments & Hp).
    assert (Hall : forall c p k v,
               (a <- get (VDict d) c;;
                or_ a (m <- get_default (VDict d) p (VDict ∅);; get m k)) = Ok v ->
               nested_ok d c p = true).
    { intros c p k v Hv. destruct (nested_ok d c p) eqn:Hn; [reflexivity|].
      destruct (nested_field_Raise d c p k Hn) as [msg Hr]. congruence. }
    unfold well_shaped in H.
    rewrite (Hall _ _ _ _ Haudio), (Hall _ _ _ _ Hauthor), (Hall _ _ _ _ Hlikes),
      (Hall _ _ _ _ Hviews), (Hall _ _ _ _ Hshares), (Hall _ _ _ _ Hcomments) in H.
    discriminate.
  - destruct (parse_metadata_only_AttributeError _ _ Hp) as [msg ->]. eauto.
Qed.


(** Every field of a mapped record is what the fallback chain gives. *)
Lemma parse_metadata_fallback_chain (data : gmap string value) (m : TikTokMetadata.t) :
  parse_metadata (VDict data) = Ok m ->
  forall f, field_of f m = fallback_chain f data.
Proof.
  unfold parse_metadata. rewrite !flat_field_Ok. cbn [bind]. intros Hp.
  apply bind_Ok_inv in Hp as (audio_url & Haudio & Hp).
  apply bind_Ok_inv in Hp as (author & Hauthor & Hp).
  apply bind_Ok_inv in Hp as (likes & Hlikes & Hp).
  apply bind_Ok_inv in Hp as (views & Hviews & Hp).
  apply bind_Ok_inv in Hp as (shares & Hshares & Hp).
  apply bind_Ok_inv in Hp as (comments & Hcomments & Hp).
  injection Hp as <-.
  apply nested_field_Ok_inv in Haudio, Hauthor, Hlikes, Hviews, Hshares, Hcomments.
  intros []; unfold fallback_chain, field_of, canonical_key, provider_alias;
    cbn [TikTokMetadata.title TikTokMetadata.description TikTokMetadata.audio_url
         TikTokMetadata.author TikTokMetadata.likes TikTokMetadata.views
         TikTokMetadata.shares TikTokMetadata.comments];
    first [ reflexivity | assumption ].
Qed.

(** A falsy value holds nothing under any key. *)
Lemma lookup_path_falsy (v : value) (key : string) :
  truthy v = false -> lookup_path v [key] = None.
Proof.
  destruct v as [| | | | |d]; try reflexivity. simpl. intros Hsize.
  apply negb_false_iff, Nat.eqb_eq, map_size_empty_iff in Hsize. subst d.
  rewrite lookup_empty. reflexivity.
Qed.

(** C5, as amended.  For every payload on which the mapper meets no
    malformed nested object it returns a record, and for every canonical
    field of it: the value under the flat canonical key is the field when
    it is truthy; otherwise (the key absent, or its value falsy) the field
    is what the provider alias holds, and null when the alias is absent as
    well.  For the author the alias, nested under the canonical key
    itself, never contributes.  In particular, a payload with no flat
    "likes" key and a nested stats.diggCount maps likes to the nested
    value. *)
Theorem C5_fallback_order (data : gmap string value) :
  well_shaped data = true ->
  exists m,
    parse_metadata (VDict data) = Ok m
    /\ (forall f, field_of f m = fallback_chain f data)
    /\ (forall f v, data !! canonical_key f = Some v -> truthy v = true ->
        field_of f m = v)
    /\ (forall f v, truthy (default VNone (data !! canonical_key f)) = false ->
        lookup_path (VDict data) (provider_alias f) = Some v ->
        field_of f m = v)
    /\ (forall f, truthy (default VNone (data !! canonical_key f)) = false ->
        lookup_path (VDict data) (provider_alias f) = None ->
        field_of f m = VNone)
    /\ (truthy (default VNone (data !! "author")) = false ->
        TikTokMetadata.author m = VNone)
    /\ (forall stats v, data !! "likes" = None ->
        data !! "stats" = Some (VDict stats) ->
        stats !! "diggCount" = Some v ->
        TikTokMetadata.likes m = v).
Proof.
  intros Hshape. destruct (parse_metadata_well_shaped data Hshape) as [m Hp].
  exists m. pose proof (parse_metadata_fallback_chain data m Hp) as Hchain.
  assert (Hfalsy : forall f,
             truthy (default VNone (data !! canonical_key f)) = false ->
             field_of f m = default VNone (lookup_path (VDict data) (provider_alias f))).
  { intros f Hk. rewrite Hchain. unfold fallback_chain.
    destruct (data !! canonical_key f) as [v|]; [|reflexivity].
    simpl in Hk. rewrite Hk. reflexivity. }
  split; [exact Hp|]. split; [exact Hchain|]. repeat apply conj.
  - intros f v Hk Hv. rewrite Hchain. unfold fallback_chain. rewrite Hk, Hv. reflexivity.
  - intros f v Hk Ha. rewrite (Hfalsy f Hk), Ha. reflexivity.
  - intros f Hk Ha. rewrite (Hfalsy f Hk), Ha. reflexivity.
  - intros Hk. change (field_of Author m = VNone). rewrite (Hfalsy Author Hk).
    cbn [provider_alias].
    change (lookup_path (VDict data) ["author"; "uniqueId"])
      with (match data !! "author" with
            | Some v => lookup_path v ["uniqueId"]
            | None => None
            end).
    cbn [canonical_key] in Hk.
    destruct (data !! "author") as [v|]; [|reflexivity].
    simpl in Hk. rewrite (lookup_path_falsy v "uniqueId" Hk). reflexivity.
  - intros stats v Hk Hs Hd. change (field_of Likes m = v).
    rewrite Hchain. unfold fallback_chain. cbn [canonical_key provider_alias].
    rewrite Hk. simpl. rewrite Hs, Hd. reflexivity.
Qed.

(** The scenario payload {"desc": "hello", "stats": {"diggCount": 5}}:
    title and description fall back to "desc", likes to stats.diggCount,
    and the fields with neither key are null. *)
Lemma C5_fallback_order_witness :
  exists m,
    parse_metadata metadata_payload = Ok m
    /\ TikTokMetadata.title m = VStr "hello"
    /\ TikTokMetadata.likes m = VInt 5
    /\ TikTokMetadata.views m = VNone
    /\ TikTokMetadata.author m = VNone.
Proof.
  destruct (C5_fallback_order
              {[ "desc" := VStr "hello"; "stats" := VDict {[ "diggCount" := VInt 5 ]} ]})
    as (m & Hp & _ & _ & Halias & Hnull & Hauthor & Hlikes).
  - reflexivity.
  - exists m. split; [exact Hp|].
    split; [exact (Halias Title (VStr "hello") eq_refl eq_refl)|].
    split; [exact (Hlikes {[ "diggCount" := VInt 5 ]} (VInt 5) eq_refl eq_refl eq_refl)|].
    split; [exact (Hnull Views eq_refl eq_refl) | exact (Hauthor eq_refl)].
Defined.

(** C5, as stated, fails on {"likes": 0, "stats": {"diggCount": 7}}: the
    flat "likes" key is present, and the mapped likes is the nested 7, not
    the 0 found under the canonical key; on {"views": 0} the mapped views
    is null although the canonical key is present. *)
Lemma C5_falsy_canonical_counterexample :
  (exists m,
     parse_metadata
       (VDict {[ "likes" := VInt 0; "stats" := VDict {[ "diggCount" := VInt 7 ]} ]})
     = Ok m
     /\ TikTokMetadata.likes m = VInt 7
     /\ presence_chain Likes
          {[ "likes" := VInt 0; "stats" := VDict {[ "diggCount" := VInt 7 ]} ]}
        = VInt 0
     /\ field_of Likes m
        <> presence_chain Likes
             {[ "likes" := VInt 0; "stats" := VDict {[ "diggCount" := VInt 7 ]} ]})
  /\ (exists m,
        parse_metadata (VDict {[ "views" := VInt 0 ]}) = Ok m
        /\ TikTokMetadata.views m = VNone
        /\ field_of Views m <> presence_chain Views {[ "views" := VInt 0 ]}).
Proof.
  split.
  - exists (TikTokMetadata.mk VNone VNone VNone VNone (VInt 7) VNone VNone VNone).
    repeat apply conj; try reflexivity. discriminate.
  - exists (TikTokMetadata.mk VNone VNone VNone VNone VNone VNone VNone VNone).
    repeat apply conj; try reflexivity. discriminate.
Qed.

(** ** Where the code departs from its description *)

(** C4. The mapper is not total.  On the payload
    {"title": "clip", "music": null} the "music" key is present with a
    value that is not an object, [data.get("music", {})] returns that
    value, and [.get("playUrl")] on it raises an [AttributeError]; the
    orchestrator then fails with a [SupadataAPIError] instead of returning
    a record whose audio URL is null. *)
Theorem C4_mapper_raises_on_non_object
    : parse_metadata (VDict {[ "title" := VStr "clip"; "music" := VNone ]})
      = Raise (AttributeError "'NoneType' object has no attribute 'get'")
      /\ fetch_tiktok_data example_settings
           (example_env
              (respond 200 "" (Ok (VDict {[ "title" := VStr "clip"; "music" := VNone ]})))
              (respond 404 "" not_json))
           example_scraper example_url
         = Raise (SupadataAPIError
                    "Failed to fetch TikTok data: 'NoneType' object has no attribute 'get'"
                    None).
Proof. split; reflexivity. Qed.

(** C3. A [SupadataAPIError] raised by the upstream client does not reach
    the caller unchanged.  With the metadata request answered 500 and
    body "oops", [_fetch_metadata] raises the error with status code 500
    and message "Metadata API error: 500 - oops"; [fetch_tiktok_data]
    catches it in its last handler and raises a new [SupadataAPIError]
    with a prefixed message and no status code. *)
Theorem C3_api_error_is_rewrapped
    : _fetch_metadata example_settings example_scraper example_url
        (example_client (respond 500 "oops" not_json) (respond 404 "" not_json))
      = Raise (SupadataAPIError "Metadata API error: 500 - oops" (Some 500))
      /\ fetch_tiktok_data example_settings
           (example_env (respond 500 "oops" not_json) (respond 404 "" not_json))
           example_scraper example_url
         = Raise (SupadataAPIError
                    "Failed to fetch TikTok data: Metadata API error: 500 - oops"
                    None).
Proof. split; reflexivity. Qed.


(** What the last handlers of [fetch_tiktok_data] do to a failure of the
    gathered calls. *)
Lemma fetch_tiktok_data_upstream_failure
    (settings : Settings) (env : Env) (self : TikTokScraper)
    (video_url cleaned_url resolved_url : string) (video_id : value) (e : exn) :
  clean_tiktok_url env video_url = Ok cleaned_url ->
  resolve_short_url env cleaned_url = Ok resolved_url ->
  extract_video_id env resolved_url = Ok video_id ->
  gather (completes_first env)
    (_fetch_metadata settings self resolved_url (new_AsyncClient env))
    (_fetch_transcript settings self resolved_url (new_AsyncClient env))
  = Raise e ->
  fetch_tiktok_data settings env self video_url = Raise (fetch_tiktok_data_handlers e).
Proof.
  intros Hc Hr Hv Hg. unfold fetch_tiktok_data.
  rewrite Hc; simpl. rewrite Hr; simpl. rewrite Hv; simpl.
  rewrite Hg. reflexivity.
Qed.

(** The auth and credits errors pass through the handlers as they are. *)
Lemma fetch_tiktok_data_handlers_auth :
  fetch_tiktok_data_handlers SupadataAuthError = SupadataAuthError
  /\ fetch_tiktok_data_handlers SupadataCreditsExhausted = SupadataCreditsExhausted.
Proof. split; reflexivity. Qed.

(** So a 401 on the metadata request surfaces as the auth error itself
    whenever the transcript call returns. *)
Lemma fetch_tiktok_data_metadata_401
    (settings : Settings) (env : Env) (self : TikTokScraper)
    (video_url cleaned_url resolved_url : string) (video_id : value)
    (response : Response.t) (transcript : option TikTokTranscript.t) :
  clean_tiktok_url env video_url = Ok cleaned_url ->
  resolve_short_url env cleaned_url = Ok resolved_url ->
  extract_video_id env resolved_url = Ok video_id ->
  new_AsyncClient env (metadata_request settings self resolved_url) = Ok response ->
  Response.status_code response = 401 ->
  _fetch_transcript settings self resolved_url (new_AsyncClient env) = Ok transcript ->
  fetch_tiktok_data settings env self video_url = Raise SupadataAuthError.
Proof.
  intros Hc Hr Hv Hget H401 Ht.
  change SupadataAuthError with (fetch_tiktok_data_handlers SupadataAuthError).
  eapply fetch_tiktok_data_upstream_failure; try eassumption.
  rewrite (_fetch_metadata_401 settings self resolved_url _ response Hget H401), Ht.
  apply gather_Raise_l.
Qed.

(** An API error does not: its message is prefixed and its status code
    is dropped, whatever they were. *)
Lemma fetch_tiktok_data_handlers_api_error (msg : string) (status : option Z) :
  fetch_tiktok_data_handlers (SupadataAPIError msg status)
  = SupadataAPIError ("Failed to fetch TikTok data: " +:+ msg) None.
Proof. reflexivity. Qed.

(** A [ValueError] becomes an invalid-URL error with the same message,
    wherever it was raised. *)
Lemma fetch_tiktok_data_handlers_ValueError (msg : string) :
  fetch_tiktok_data_handlers (ValueError msg) = InvalidTikTokURLError msg.
Proof. reflexivity. Qed.

(** The scraper of the examples is the one [__init__] builds from the
    settings of the examples. *)
Lemma example_scraper_init : TikTokScraper__init__ example_settings = Ok example_scraper.
Proof. reflexivity. Qed.

(** Step 5 on its own tests the text against [None] only: the agreement
    of [has_transcript] with "text non-empty" rests on [_fetch_transcript]
    never returning a transcript with an empty text. *)
Remark combine_tests_None_only (resolved_url : string) (video_id : value)
    (metadata : TikTokMetadata.t) :
  TikTokData.has_transcript
    (combine resolved_url video_id metadata
       (Some (TikTokTranscript.mk (VStr "") VNone)))
  = true.
Proof. reflexivity. Qed.

(** * Further properties of the scraper *)

(** ** Errors that reach the caller *)

Lemma fetch_tiktok_data_handlers_documented (e : exn) :
  documented_error (fetch_tiktok_data_handlers e) = true
  \/ exists msg, e = OutsideException msg
                 /\ fetch_tiktok_data_handlers e = OutsideException msg.
Proof. destruct e; simpl; eauto. Qed.

Lemma fetch_tiktok_data_handlers_status (e : exn) (msg : string) (status : option Z) :
  fetch_tiktok_data_handlers e = SupadataAPIError msg status -> status = None.
Proof. destruct e; simpl; congruence. Qed.

(** X1. An exception that reaches the caller of [fetch_tiktok_data] is one
    of the documented errors, or an exception outside [Exception]
    (a cancellation, an interrupt, an exit) that no handler catches and
    that goes through as it was raised; so no [ValueError], no
    [httpx.HTTPError], no [AttributeError] and no other [Exception]
    reaches the caller.  A [SupadataAPIError] that does carries no status
    code. *)
Theorem X1_failures_are_documented_errors
    (settings : Settings) (env : Env) (self : TikTokScraper)
    (video_url : string) (e : exn) :
  fetch_tiktok_data settings env self video_url = Raise e ->
  (documented_error e = true \/ exists msg, e = OutsideException msg)
  /\ (forall msg status, e = SupadataAPIError msg status -> status = None).
Proof.
  unfold fetch_tiktok_data, try_except. intros H.
  match type of H with
  | match ?body with _ => _ end = _ => destruct body as [r|e0]; [discriminate|]
  end.
  injection H as <-. split.
  - destruct (fetch_tiktok_data_handlers_documented e0) as [Hd | (msg & _ & Ho)].
    + left. exact Hd.
    + right. exists msg. exact Ho.
  - intros msg status. apply fetch_tiktok_data_handlers_status.
Qed.

(** A provider that times out on the metadata endpoint, and a run that
    is cancelled while the short URL is being resolved. *)
Lemma X1_failures_are_documented_errors_witness :
  (fetch_tiktok_data example_settings
     (example_env (Raise (HTTPError "timed out")) (respond 404 "" not_json))
     example_scraper example_url
   = Raise (SupadataAPIError
              "Failed to fetch TikTok data: Failed to fetch metadata: timed out" None)
   /\ (documented_error
         (SupadataAPIError
            "Failed to fetch TikTok data: Failed to fetch metadata: timed out" None)
       = true
       \/ exists msg,
            SupadataAPIError
              "Failed to fetch TikTok data: Failed to fetch metadata: timed out" None
            = OutsideException msg))
  /\ fetch_tiktok_data example_settings
       (Build_Env (fun u => Ok u) (fun _ => Raise (OutsideException "CancelledError"))
                  (fun _ => Ok (VStr "7000000000000000000"))
                  (example_client (respond 200 "" (Ok metadata_payload))
                                  (respond 404 "" not_json))
                  metadata_task)
       example_scraper example_url
     = Raise (OutsideException "CancelledError").
Proof.
  assert (H : fetch_tiktok_data example_settings
                (example_env (Raise (HTTPError "timed out")) (respond 404 "" not_json))
                example_scraper example_url
              = Raise (SupadataAPIError
                         "Failed to fetch TikTok data: Failed to fetch metadata: timed out"
                         None))
    by reflexivity.
  split; [split; [exact H|] | reflexivity].
  exact (proj1 (X1_failures_are_documented_errors _ _ _ _ _ H)).
Defined.

(** The transport handler of the two fetches never hands on a transport
    error. *)
Lemma try_except_no_HTTPError {A} (body : result A) (prefix msg : string) :
  try_except body
    (fun e => match e with
              | HTTPError m => SupadataAPIError (prefix +:+ m) None
              | _ => e
              end)
  <> Raise (HTTPError msg).
Proof. destruct body as [a|[]]; simpl; congruence. Qed.

(** X2. Neither fetch lets an [httpx.HTTPError] escape, whether it comes
    from the request or from reading the response. *)
Theorem X2_fetches_never_raise_HTTPError
    (settings : Settings) (self : TikTokScraper) (url : string) (client : AsyncClient)
    (msg : string) :
  _fetch_metadata settings self url client <> Raise (HTTPError msg)
  /\ _fetch_transcript settings self url client <> Raise (HTTPError msg).
Proof.
  split; [unfold _fetch_metadata | unfold _fetch_transcript];
    apply try_except_no_HTTPError.
Qed.

(** ** Failures before and during the upstream calls *)

(** X3. A failure of one of the three URL steps ends the run with the
    handlers' image of that failure, whatever the provider would have
    answered and in whatever order; a [ValueError] of a URL helper reaches
    the caller as an [InvalidTikTokURLError] with the same message. *)
Theorem X3_url_failure_short_circuits
    (settings : Settings) (self : TikTokScraper) (video_url : string)
    (clean resolve : string -> result string) (extract : string -> result value)
    (e : exn) :
  clean video_url = Raise e
  \/ (exists cleaned_url, clean video_url = Ok cleaned_url
                          /\ resolve cleaned_url = Raise e)
  \/ (exists cleaned_url resolved_url,
        clean video_url = Ok cleaned_url
        /\ resolve cleaned_url = Ok resolved_url
        /\ extract resolved_url = Raise e) ->
  forall (client : AsyncClient) (first : task),
    fetch_tiktok_data settings (Build_Env clean resolve extract client first)
      self video_url
    = Raise (fetch_tiktok_data_handlers e)
    /\ (forall msg, e = ValueError msg ->
        fetch_tiktok_data settings (Build_Env clean resolve extract client first)
          self video_url
        = Raise (InvalidTikTokURLError msg)).
Proof.
  intros Hfail client first.
  assert (H : fetch_tiktok_data settings (Build_Env clean resolve extract client first)
                self video_url
              = Raise (fetch_tiktok_data_handlers e)).
  { unfold fetch_tiktok_data; simpl.
    destruct Hfail as [Hc | [(c & Hc & Hr) | (c & r & Hc & Hr & Hv)]].
    - rewrite Hc. reflexivity.
    - rewrite Hc; simpl. rewrite Hr. reflexivity.
    - rewrite Hc; simpl. rewrite Hr; simpl. rewrite Hv. reflexivity. }
  split; [exact H|]. intros msg ->. exact H.
Qed.

(** A cleaning step that rejects the input, in front of a provider that
    would have answered. *)
Lemma X3_url_failure_short_circuits_witness :
  fetch_tiktok_data example_settings
    (Build_Env (fun _ => Raise (ValueError "Not a valid TikTok URL"))
               (fun u => Ok u) (fun _ => Ok (VStr "7000000000000000000"))
               (example_client (respond 200 "" (Ok metadata_payload))
                               (respond 200 "" (Ok transcript_payload)))
               transcript_task)
    example_scraper "https://example.com/"
  = Raise (InvalidTikTokURLError "Not a valid TikTok URL").
Proof.
  refine (proj2 (X3_url_failure_short_circuits example_settings example_scraper
                   "https://example.com/"
                   (fun _ => Raise (ValueError "Not a valid TikTok URL"))
                   (fun u => Ok u) (fun _ => Ok (VStr "7000000000000000000"))
                   (ValueError "Not a valid TikTok URL") _ _ _)
                _ eq_refl).
  left. reflexivity.
Defined.

(** A response below 400 whose body cannot be decoded makes the metadata
    fetch raise the decoder's exception. *)
Lemma _fetch_metadata_json_failure
    (settings : Settings) (self : TikTokScraper) (url : string) (client : AsyncClient)
    (r : Response.t) (e : exn) :
  client (metadata_request settings self url) = Ok r ->
  Response.status_code r < 400 ->
  Response.json r = Raise e ->
  (forall msg, e <> HTTPError msg) ->
  _fetch_metadata settings self url client = Raise e.
Proof.
  intros Hget Hlt Hjson Hne. unfold _fetch_metadata.
  fold (metadata_request settings self url). rewrite Hget; simpl.
  destruct (Z.eqb_spec (Response.status_code r) 401); [lia|].
  destruct (Z.eqb_spec (Response.status_code r) 402); [lia|].
  rewrite Z.geb_leb. destruct (Z.leb_spec 400 (Response.status_code r)); [lia|].
  rewrite Hjson; simpl. destruct e; try reflexivity.
  exfalso. eapply Hne. reflexivity.
Qed.

(** X4. The [ValueError] handler of [fetch_tiktok_data] also catches what
    the upstream calls raise: when the metadata response is below 400 and
    its body is not JSON, so that [response.json()] raises a [ValueError],
    and the transcript call returns, the caller receives an
    [InvalidTikTokURLError] carrying the decoder's message. *)
Theorem X4_undecodable_body_is_reported_as_invalid_url
    (settings : Settings) (env : Env) (self : TikTokScraper)
    (video_url cleaned_url resolved_url : string) (video_id : value)
    (response : Response.t) (msg : string) (transcript : option TikTokTranscript.t) :
  clean_tiktok_url env video_url = Ok cleaned_url ->
  resolve_short_url env cleaned_url = Ok resolved_url ->
  extract_video_id env resolved_url = Ok video_id ->
  new_AsyncClient env (metadata_request settings self resolved_url) = Ok response ->
  Response.status_code response < 400 ->
  Response.json response = Raise (ValueError msg) ->
  _fetch_transcript settings self resolved_url (new_AsyncClient env) = Ok transcript ->
  fetch_tiktok_data settings env self video_url = Raise (InvalidTikTokURLError msg).
Proof.
  intros Hc Hr Hv Hget Hlt Hjson Ht.
  change (InvalidTikTokURLError msg) with (fetch_tiktok_data_handlers (ValueError msg)).
  eapply fetch_tiktok_data_upstream_failure; try eassumption.
  rewrite (_fetch_metadata_json_failure settings self resolved_url _ response
             (ValueError msg) Hget Hlt Hjson), Ht; [apply gather_Raise_l|].
  intros m. discriminate.
Qed.

(** A 200 whose body is an HTML page. *)
Lemma X4_undecodable_body_is_reported_as_invalid_url_witness :
  fetch_tiktok_data example_settings
    (example_env (respond 200 "<html></html>" not_json) (respond 404 "" not_json))
    example_scraper example_url
  = Raise (InvalidTikTokURLError "Expecting value: line 1 column 1 (char 0)").
Proof.
  apply (X4_undecodable_body_is_reported_as_invalid_url example_settings
           (example_env (respond 200 "<html></html>" not_json) (respond 404 "" not_json))
           example_scraper example_url example_url example_url
           (VStr "7000000000000000000")
           (Response.mk 200 "<html></html>" not_json)
           "Expecting value: line 1 column 1 (char 0)" None);
    first [ reflexivity | simpl; lia ].
Defined.

(** X5. Once the URL is normalised, a failure of the run is the handlers'
    image of an exception one of the two fetches raised: of the metadata
    fetch when only it fails, of the transcript fetch when only it fails,
    and of one of the two when both fail. *)
Theorem X5_upstream_failure_surfaced
    (settings : Settings) (env : Env) (self : TikTokScraper)
    (video_url cleaned_url resolved_url : string) (video_id : value) :
  clean_tiktok_url env video_url = Ok cleaned_url ->
  resolve_short_url env cleaned_url = Ok resolved_url ->
  extract_video_id env resolved_url = Ok video_id ->
  (forall e transcript,
     _fetch_metadata settings self resolved_url (new_AsyncClient env) = Raise e ->
     _fetch_transcript settings self resolved_url (new_AsyncClient env) = Ok transcript ->
     fetch_tiktok_data settings env self video_url = Raise (fetch_tiktok_data_handlers e))
  /\ (forall e metadata,
        _fetch_metadata settings self resolved_url (new_AsyncClient env) = Ok metadata ->
        _fetch_transcript settings self resolved_url (new_AsyncClient env) = Raise e ->
        fetch_tiktok_data settings env self video_url
        = Raise (fetch_tiktok_data_handlers e))
  /\ (forall e',
        fetch_tiktok_data settings env self video_url = Raise e' ->
        exists e,
          (_fetch_metadata settings self resolved_url (new_AsyncClient env) = Raise e
           \/ _fetch_transcript settings self resolved_url (new_AsyncClient env) = Raise e)
          /\ e' = fetch_tiktok_data_handlers e).
Proof.
  intros Hc Hr Hv. repeat apply conj.
  - intros e transcript Hm Ht.
    eapply fetch_tiktok_data_upstream_failure; try eassumption.
    rewrite Hm, Ht. apply gather_Raise_l.
  - intros e metadata Hm Ht.
    eapply fetch_tiktok_data_upstream_failure; try eassumption.
    rewrite Hm, Ht. apply gather_Raise_r.
  - intros e'. unfold fetch_tiktok_data.
    rewrite Hc; simpl. rewrite Hr; simpl. rewrite Hv; simpl.
    destruct (_fetch_metadata settings self resolved_url (new_AsyncClient env))
      as [metadata|em];
      destruct (_fetch_transcript settings self resolved_url (new_AsyncClient env))
        as [transcript|et]; simpl.
    + discriminate.
    + intros [= <-]. eauto.
    + intros [= <-]. eauto.
    + destruct (completes_first env); intros [= <-]; eauto.
Qed.

(** A credits error on the transcript endpoint, next to a metadata
    response that is fine. *)
Lemma X5_upstream_failure_surfaced_witness :
  fetch_tiktok_data example_settings
    (example_env (respond 200 "" (Ok metadata_payload)) (respond 402 "" not_json))
    example_scraper example_url
  = Raise SupadataCreditsExhausted.
Proof.
  refine (proj1 (proj2 (X5_upstream_failure_surfaced example_settings
                          (example_env (respond 200 "" (Ok metadata_payload))
                                       (respond 402 "" not_json))
                          example_scraper example_url example_url example_url
                          (VStr "7000000000000000000") eq_refl eq_refl eq_refl))
                SupadataCreditsExhausted
                (TikTokMetadata.mk (VStr "hello") (VStr "hello") VNone VNone
                                   (VInt 5) VNone VNone VNone)
                _ _); reflexivity.
Defined.

(** ** The two mappers *)

(** The metadata mapper returns on well-shaped objects only. *)
Lemma parse_metadata_Ok_inv (data : value) (m : TikTokMetadata.t) :
  parse_metadata data = Ok m ->
  exists d, data = VDict d /\ well_shaped d = true.
Proof.
  intros Hp. destruct data as [| | | | |d]; try discriminate Hp.
  exists d. split; [reflexivity|].
  destruct (well_shaped d) eqn:Hs; [reflexivity|].
  destruct (parse_metadata_ill_shaped d Hs) as [msg Hr]. congruence.
Qed.

(** X6. The metadata mapper returns a record exactly on the JSON objects
    in which each of "music", "author" and "stats" is absent, an object,
    or shadowed by a truthy canonical key; on every other JSON value
    (an array, a string, a number, null, or an object with such a key
    bound to a non-object) it raises an [AttributeError]. *)
Theorem X6_mapper_domain (data : value) :
  ((exists m, parse_metadata data = Ok m) <->
   (exists d, data = VDict d /\ well_shaped d = true))
  /\ ((exists msg, parse_metadata data = Raise (AttributeError msg)) <->
      ~ (exists d, data = VDict d /\ well_shaped d = true)).
Proof.
  assert (Hiff : (exists m, parse_metadata data = Ok m) <->
                 (exists d, data = VDict d /\ well_shaped d = true)).
  { split.
    - intros [m Hp]. eapply parse_metadata_Ok_inv, Hp.
    - intros (d & -> & Hs). apply parse_metadata_well_shaped, Hs. }
  split; [exact Hiff|]. split.
  - intros [msg Hr] Hd. apply Hiff in Hd as [m Hp]. congruence.
  - intros Hnot. destruct (parse_metadata data) as [m|e] eqn:Hp.
    + exfalso. apply Hnot, Hiff. eauto.
    + destruct (parse_metadata_only_AttributeError _ _ Hp) as [msg ->]. eauto.
Qed.

(** The transcript mapper returns [None] on objects without a truthy
    text only. *)
Lemma parse_transcript_None_inv (data : value) :
  parse_transcript data = Ok None ->
  exists d, data = VDict d
            /\ truthy (default VNone (d !! "text")) = false
            /\ truthy (default VNone (d !! "transcript")) = false.
Proof.
  intros Hp. destruct data as [| | | | |d]; try discriminate Hp.
  exists d. split; [reflexivity|].
  revert Hp. unfold parse_transcript, or_; simpl.
  destruct (truthy (default VNone (d !! "text"))) eqn:Htext; simpl.
  - destruct (truthy (default VNone (d !! "language"))); simpl;
      rewrite Htext; discriminate.
  - destruct (truthy (default VNone (d !! "language"))); simpl;
      destruct (truthy (default VNone (d !! "transcript"))); (discriminate || auto).
Qed.

(** X7. On a JSON object the transcript mapper never raises.  A truthy
    "text" is the transcript's text, even next to a "transcript" key; a
    truthy "transcript" is used when "text" is absent or falsy; the
    language is "language" when truthy and "lang" otherwise; and the result
    is [None] exactly when neither text key has a truthy value. *)
Theorem X7_transcript_mapper (d : gmap string value) :
  let text := default VNone (d !! "text") in
  let alias := default VNone (d !! "transcript") in
  let language := if truthy (default VNone (d !! "language"))
                  then default VNone (d !! "language")
                  else default VNone (d !! "lang") in
  (truthy text = true ->
   parse_transcript (VDict d) = Ok (Some (TikTokTranscript.mk text language)))
  /\ (truthy text = false -> truthy alias = true ->
      parse_transcript (VDict d) = Ok (Some (TikTokTranscript.mk alias language)))
  /\ (parse_transcript (VDict d) = Ok None <->
      truthy text = false /\ truthy alias = false).
Proof.
  cbv zeta. repeat apply conj.
  - intros Htext. unfold parse_transcript, or_; simpl. rewrite Htext; simpl.
    destruct (truthy (default VNone (d !! "language"))); simpl;
      rewrite Htext; reflexivity.
  - intros Htext Halias. unfold parse_transcript, or_; simpl. rewrite Htext; simpl.
    destruct (truthy (default VNone (d !! "language"))); simpl;
      rewrite Halias; reflexivity.
  - intros Hp. apply parse_transcript_None_inv in Hp as (d' & [= <-] & Ht & Ha). auto.
  - intros [Ht Ha]. apply parse_transcript_no_text; assumption.
Qed.

(** Both text keys present: "text" wins, and "lang" supplies the
    language. *)
Lemma X7_transcript_mapper_witness :
  parse_transcript
    (VDict {[ "text" := VStr "hello"; "transcript" := VStr "ignored";
              "lang" := VStr "en" ]})
  = Ok (Some (TikTokTranscript.mk (VStr "hello") (VStr "en"))).
Proof.
  assert (Htext : truthy (default VNone
                    (({[ "text" := VStr "hello"; "transcript" := VStr "ignored";
                         "lang" := VStr "en" ]} : gmap string value) !! "text"))
                  = true)
    by reflexivity.
  pose proof (proj1 (X7_transcript_mapper
                       {[ "text" := VStr "hello"; "transcript" := VStr "ignored";
                          "lang" := VStr "en" ]}) Htext) as H.
  exact H.
Defined.

(** ** What a returned value says about the response *)

(** X8. When [_fetch_metadata] returns a record, the provider answered
    the metadata request with a status below 400 and a body that is a
    well-shaped JSON object, and the record is the mapper's image of that
    body. *)
Theorem X8_metadata_success_inversion
    (settings : Settings) (self : TikTokScraper) (url : string) (client : AsyncClient)
    (m : TikTokMetadata.t) :
  _fetch_metadata settings self url client = Ok m ->
  exists response d,
    client (metadata_request settings self url) = Ok response
    /\ Response.status_code response < 400
    /\ Response.json response = Ok (VDict d)
    /\ well_shaped d = true
    /\ parse_metadata (VDict d) = Ok m.
Proof.
  unfold _fetch_metadata. fold (metadata_request settings self url). intros H.
  apply try_except_Ok_inv in H.
  apply bind_Ok_inv in H as (response & Hget & H).
  destruct (Response.status_code response =? 401); [discriminate|].
  destruct (Response.status_code response =? 402); [discriminate|].
  rewrite Z.geb_leb in H.
  destruct (Z.leb_spec 400 (Response.status_code response)); [discriminate|].
  apply bind_Ok_inv in H as (data & Hjson & Hp).
  destruct (parse_metadata_Ok_inv data m Hp) as (d & -> & Hs).
  exists response, d. auto.
Qed.

(** The metadata request of the scenario. *)
Lemma X8_metadata_success_inversion_witness :
  exists response d,
    example_client (respond 200 "" (Ok metadata_payload)) (respond 404 "" not_json)
      (metadata_request example_settings example_scraper example_url)
    = Ok response
    /\ Response.status_code response < 400
    /\ Response.json response = Ok (VDict d)
    /\ well_shaped d = true
    /\ parse_metadata (VDict d)
       = Ok (TikTokMetadata.mk (VStr "hello") (VStr "hello") VNone VNone
                               (VInt 5) VNone VNone VNone).
Proof.
  apply (X8_metadata_success_inversion example_settings example_scraper example_url
           (example_client (respond 200 "" (Ok metadata_payload))
                           (respond 404 "" not_json))).
  reflexivity.
Defined.

(** X9. [_fetch_transcript] returns [None] in exactly two situations: the
    provider answered 404, or it answered below 400 with a JSON object
    that has no truthy value under "text" or "transcript". *)
Theorem X9_transcript_absence
    (settings : Settings) (self : TikTokScraper) (url : string) (client : AsyncClient) :
  _fetch_transcript settings self url client = Ok None <->
  exists response,
    client (transcript_request settings self url) = Ok response
    /\ (Response.status_code response = 404
        \/ (Response.status_code response < 400
            /\ exists d, Response.json response = Ok (VDict d)
                         /\ truthy (default VNone (d !! "text")) = false
                         /\ truthy (default VNone (d !! "transcript")) = false)).
Proof.
  split.
  - unfold _fetch_transcript. fold (transcript_request settings self url). intros H.
    apply try_except_Ok_inv in H.
    apply bind_Ok_inv in H as (response & Hget & H).
    exists response. split; [exact Hget|].
    destruct (Z.eqb_spec (Response.status_code response) 404); [left; assumption|].
    destruct (Response.status_code response =? 401); [discriminate|].
    destruct (Response.status_code response =? 402); [discriminate|].
    rewrite Z.geb_leb in H.
    destruct (Z.leb_spec 400 (Response.status_code response)); [discriminate|].
    apply bind_Ok_inv in H as (data & Hjson & Hp).
    apply parse_transcript_None_inv in Hp as (d & -> & Ht & Ha).
    right. eauto.
  - intros (response & Hget & [H404 | (Hlt & d & Hjson & Ht & Ha)]).
    + eapply _fetch_transcript_404; eassumption.
    + rewrite (_fetch_transcript_success settings self url client response (VDict d));
        [apply parse_transcript_no_text; assumption | assumption | assumption | assumption].
Qed.

(** A payload in the mapper's domain, and one outside it. *)
Lemma X6_mapper_domain_witness :
  (exists m, parse_metadata metadata_payload = Ok m)
  /\ (exists msg, parse_metadata (VList []) = Raise (AttributeError msg)).
Proof.
  split.
  - apply (proj1 (X6_mapper_domain metadata_payload)).
    eexists. split; reflexivity.
  - apply (proj2 (X6_mapper_domain (VList []))).
    intros (d & Hd & _). discriminate Hd.
Defined.

(** A 404 on the transcript endpoint. *)
Lemma X9_transcript_absence_witness :
  _fetch_transcript example_settings example_scraper example_url
    (example_client (respond 200 "" (Ok metadata_payload)) (respond 404 "" not_json))
  = Ok None.
Proof.
  apply (X9_transcript_absence example_settings example_scraper example_url
           (example_client (respond 200 "" (Ok metadata_payload))
                           (respond 404 "" not_json))).
  exists (Response.mk 404 "" not_json). split; [reflexivity | left; reflexivity].
Defined.

(** ** The record of a successful run *)

(** X10. The record of a successful run is made of what the steps
    produced: its [url] is the resolved URL (not the input) and its
    [video_id] the id extracted from it, both fetches were made for that
    resolved URL, every metadata field is the one the metadata fetch
    returned, and the transcript text and language are those of the
    transcript when there is one and [None] otherwise. *)
Theorem X10_record_copies_through
    (settings : Settings) (env : Env) (self : TikTokScraper)
    (video_url : string) (record : TikTokData.t) :
  fetch_tiktok_data settings env self video_url = Ok record ->
  exists cleaned_url metadata transcript,
    normalize env video_url
    = Ok (cleaned_url, TikTokData.url record, TikTokData.video_id record)
    /\ _fetch_metadata settings self (TikTokData.url record) (new_AsyncClient env)
       = Ok metadata
    /\ _fetch_transcript settings self (TikTokData.url record) (new_AsyncClient env)
       = Ok transcript
    /\ (forall f, record_field f record = field_of f metadata)
    /\ TikTokData.transcript record
       = match transcript with Some tr => TikTokTranscript.text tr | None => VNone end
    /\ TikTokData.transcript_language record
       = match transcript with Some tr => TikTokTranscript.language tr | None => VNone end.
Proof.
  intros H.
  apply fetch_tiktok_data_Ok_inv in H
    as (cleaned_url & resolved_url & video_id & metadata & transcript
        & Hc & Hr & Hv & Hm & Ht & ->).
  exists cleaned_url, metadata, transcript. simpl. repeat apply conj; try assumption.
  - unfold normalize. rewrite Hc; simpl. rewrite Hr; simpl. rewrite Hv. reflexivity.
  - intros []; reflexivity.
  - reflexivity.
  - reflexivity.
Qed.

(** The run of the short-link scenario against a provider that answers:
    the record carries the canonical URL, not the short link. *)
Lemma X10_record_copies_through_witness :
  exists record,
    fetch_tiktok_data example_settings
      (UrlUtils.env UrlUtils.tiktok
         (example_client (respond 200 "" (Ok metadata_payload))
                         (respond 200 "" (Ok transcript_payload)))
         metadata_task)
      example_scraper UrlUtils.short_link
    = Ok record
    /\ TikTokData.url record = UrlUtils.canonical_link
    /\ TikTokData.likes record = VInt 5
    /\ TikTokData.transcript_language record = VStr "en".
Proof.
  eexists. split; [reflexivity|].
  split; [reflexivity|]. split; [reflexivity|].
  destruct (X10_record_copies_through example_settings
              (UrlUtils.env UrlUtils.tiktok
                 (example_client (respond 200 "" (Ok metadata_payload))
                                 (respond 200 "" (Ok transcript_payload)))
                 metadata_task)
              example_scraper UrlUtils.short_link _ eq_refl)
    as (cleaned_url & metadata & transcript & _ & _ & Ht & _ & _ & Hl).
  rewrite Hl. revert Ht. simpl.
  intros Ht. vm_compute in Ht. injection Ht as <-. reflexivity.
Defined.

(** ** The scraper and its requests *)

(** X11. A scraper is built exactly when the API key is not empty.  Every
    request of a scraper so built goes to the base URL followed by the
    endpoint path of the settings, carries the video URL as its "url"
    parameter, the bearer authorization made of the configured key, the
    JSON content type and the configured timeout; and each fetch consults
    the provider through that one request only. *)
Theorem X11_scraper_requests (settings : Settings) :
  (TikTokScraper__init__ settings
   = Raise (ValueError "SUPADATA_API_KEY is not configured")
   <-> SUPADATA_API_KEY settings = "")
  /\ forall self, TikTokScraper__init__ settings = Ok self ->
       api_key self <> ""
       /\ forall url,
            endpoint (metadata_request settings self url)
            = SUPADATA_BASE_URL settings +:+ SUPADATA_METADATA_ENDPOINT settings
            /\ endpoint (transcript_request settings self url)
               = SUPADATA_BASE_URL settings +:+ SUPADATA_TRANSCRIPT_ENDPOINT settings
            /\ (forall request,
                  request = metadata_request settings self url
                  \/ request = transcript_request settings self url ->
                  params request !! "url" = Some url
                  /\ headers request !! "Authorization"
                     = Some ("Bearer " +:+ SUPADATA_API_KEY settings)
                  /\ headers request !! "Content-Type" = Some "application/json"
                  /\ req_timeout request = REQUEST_TIMEOUT settings)
            /\ (forall client client' : AsyncClient,
                  client (metadata_request settings self url)
                  = client' (metadata_request settings self url) ->
                  _fetch_metadata settings self url client
                  = _fetch_metadata settings self url client')
            /\ (forall client client' : AsyncClient,
                  client (transcript_request settings self url)
                  = client' (transcript_request settings self url) ->
                  _fetch_transcript settings self url client
                  = _fetch_transcript settings self url client').
Proof.
  unfold TikTokScraper__init__; simpl. split.
  - destruct (SUPADATA_API_KEY settings) as [|c k]; simpl; split;
      first [ reflexivity | discriminate ].
  - intros self.
    destruct (SUPADATA_API_KEY settings) as [|c k] eqn:Hkey; simpl; [discriminate|].
    intros [= <-]. simpl. split; [discriminate|].
    intros url. repeat apply conj.
    + reflexivity.
    + reflexivity.
    + intros request [-> | ->]; repeat apply conj; reflexivity.
    + intros client client' Heq. unfold _fetch_metadata.
      fold (metadata_request settings
              {| base_url := SUPADATA_BASE_URL settings; api_key := String c k;
                 timeout := REQUEST_TIMEOUT settings |} url).
      rewrite Heq. reflexivity.
    + intros client client' Heq. unfold _fetch_transcript.
      fold (transcript_request settings
              {| base_url := SUPADATA_BASE_URL settings; api_key := String c k;
                 timeout := REQUEST_TIMEOUT settings |} url).
      rewrite Heq. reflexivity.
Qed.

(** With the default settings and the key "secret": the two endpoints of
    the provider, and the authorization header. *)
Lemma X11_scraper_requests_witness :
  endpoint (metadata_request example_settings example_scraper example_url)
  = "https://api.supadata.ai/v1/tiktok/metadata"
  /\ endpoint (transcript_request example_settings example_scraper example_url)
     = "https://api.supadata.ai/v1/transcript"
  /\ headers (metadata_request example_settings example_scraper example_url)
       !! "Authorization"
     = Some "Bearer secret".
Proof.
  destruct (proj2 (X11_scraper_requests example_settings) example_scraper eq_refl)
    as [_ H].
  destruct (H example_url) as (Hm & Ht & Hreq & _).
  split; [exact Hm|]. split; [exact Ht|].
  exact (proj1 (proj2 (Hreq _ (or_introl eq_refl)))).
Defined.

(** The transcript mapper returns a transcript on objects only, with the
    text and language its fallbacks choose. *)
Lemma parse_transcript_Some_inv (data : value) (tr : TikTokTranscript.t) :
  parse_transcript data = Ok (Some tr) ->
  exists d, data = VDict d
            /\ TikTokTranscript.text tr
               = (if truthy (default VNone (d !! "text"))
                  then default VNone (d !! "text")
                  else default VNone (d !! "transcript"))
            /\ TikTokTranscript.language tr
               = (if truthy (default VNone (d !! "language"))
                  then default VNone (d !! "language")
                  else default VNone (d !! "lang")).
Proof.
  intros Hp. destruct data as [| | | | |d]; try discriminate Hp.
  exists d. split; [reflexivity|].
  revert Hp. unfold parse_transcript, or_; simpl.
  destruct (truthy (default VNone (d !! "text"))); simpl;
    destruct (truthy (default VNone (d !! "language"))); simpl;
    destruct (truthy _); intros [= <-]; auto.
Qed.

(** X12. When [_fetch_transcript] returns a transcript, the provider
    answered the transcript request with a status below 400 and a JSON
    object; the transcript's text is truthy and is the object's "text"
    when that is truthy and its "transcript" otherwise, and its language is
    the object's "language" when truthy and its "lang" otherwise. *)
Theorem X12_transcript_success_inversion
    (settings : Settings) (self : TikTokScraper) (url : string) (client : AsyncClient)
    (tr : TikTokTranscript.t) :
  _fetch_transcript settings self url client = Ok (Some tr) ->
  exists response d,
    client (transcript_request settings self url) = Ok response
    /\ Response.status_code response < 400
    /\ Response.json response = Ok (VDict d)
    /\ truthy (TikTokTranscript.text tr) = true
    /\ TikTokTranscript.text tr
       = (if truthy (default VNone (d !! "text"))
          then default VNone (d !! "text")
          else default VNone (d !! "transcript"))
    /\ TikTokTranscript.language tr
       = (if truthy (default VNone (d !! "language"))
          then default VNone (d !! "language")
          else default VNone (d !! "lang")).
Proof.
  unfold _fetch_transcript. fold (transcript_request settings self url). intros H.
  apply try_except_Ok_inv in H.
  apply bind_Ok_inv in H as (response & Hget & H).
  destruct (Response.status_code response =? 404); [discriminate|].
  destruct (Response.status_code response =? 401); [discriminate|].
  destruct (Response.status_code response =? 402); [discriminate|].
  rewrite Z.geb_leb in H.
  destruct (Z.leb_spec 400 (Response.status_code response)); [discriminate|].
  apply bind_Ok_inv in H as (data & Hjson & Hp).
  pose proof (parse_transcript_Some_truthy data tr Hp) as Htruthy.
  destruct (parse_transcript_Some_inv data tr Hp) as (d & -> & Htext & Hlang).
  exists response, d. auto 10.
Qed.

(** The transcript request of the scenario. *)
Lemma X12_transcript_success_inversion_witness :
  exists response d,
    example_client (respond 200 "" (Ok metadata_payload))
                   (respond 200 "" (Ok transcript_payload))
      (transcript_request example_settings example_scraper example_url)
    = Ok response
    /\ Response.status_code response < 400
    /\ Response.json response = Ok (VDict d)
    /\ truthy (VStr "hi there") = true.
Proof.
  destruct (X12_transcript_success_inversion example_settings example_scraper
              example_url
              (example_client (respond 200 "" (Ok metadata_payload))
                              (respond 200 "" (Ok transcript_payload)))
              (TikTokTranscript.mk (VStr "hi there") (VStr "en")) eq_refl)
    as (response & d & Hget & Hlt & Hjson & Htruthy & _).
  exists response, d. auto.
Defined.
